(** * Video claim analysis: the timestamp locator, the source fetcher and the
    report builder of [video_claim_analysis.py], embedded in Rocq.

    Python [str] values are modelled as [string]; a character is a code point
    below 256 (the Latin-1 range), on which [str.lower], [str.split],
    [str.strip], [repr] and the regular-expression class [\d] are written out.
    The dictionary [timestamps] is a [gmap] from topics to lists of timestamps.
    Exceptions ([IndexError], [KeyError], a failed network call) are [None]. *)

From Stdlib Require Import Ascii String NArith Bool.
From stdpp Require Import gmap strings list fin_maps.

(** ** Python string primitives *)

Module PyStr.

Definition code (c : ascii) : N := N_of_ascii c.

Definition between (lo hi : N) (c : ascii) : bool :=
  ((lo <=? code c) && (code c <=? hi))%N.

(** [str.isspace] on one character: TAB, LF, VT, FF, CR, FS, GS, RS, US,
    space, NEL (U+0085) and NBSP (U+00A0). *)
Definition isspace (c : ascii) : bool :=
  between 9 13 c || between 28 32 c || (code c =? 133)%N || (code c =? 160)%N.

(** The class [\d] of [re] on [str] patterns: decimal digits, which below
    U+0100 are [0] to [9] only. *)
Definition isdecimal (c : ascii) : bool := between 48 57 c.

(** [str.lower] on one character: [A]-[Z], and U+00C0-U+00DE except the
    multiplication sign U+00D7, move up by 32. *)
Definition lower_char (c : ascii) : ascii :=
  if between 65 90 c || (between 192 222 c && negb (code c =? 215)%N)
  then ascii_of_N (code c + 32)
  else c.

Fixpoint lower (s : string) : string :=
  match s with
  | EmptyString => EmptyString
  | String c s' => String (lower_char c) (lower s')
  end.

Fixpoint startswith (p s : string) : bool :=
  match p, s with
  | EmptyString, _ => true
  | String a p', String b s' => if decide (a = b) then startswith p' s' else false
  | String _ _, EmptyString => false
  end.

(** [needle in hay] *)
Fixpoint contains (needle hay : string) : bool :=
  startswith needle hay ||
  match hay with
  | EmptyString => false
  | String _ hay' => contains needle hay'
  end.

(** [s.split(sep)] for a one-character separator: never an empty list. *)
Fixpoint split_on (sep : ascii) (s : string) : list string :=
  match s with
  | EmptyString => [EmptyString]
  | String c s' =>
      if decide (c = sep) then EmptyString :: split_on sep s'
      else match split_on sep s' with
           | w :: ws => String c w :: ws
           | [] => [String c EmptyString]
           end
  end.

(** [s.split()]: the maximal runs of non-whitespace characters. *)
Fixpoint split_ws (s : string) : list string :=
  match s with
  | EmptyString => []
  | String c s' =>
      if isspace c then split_ws s'
      else match s' with
           | EmptyString => [String c EmptyString]
           | String c' _ =>
               if isspace c' then String c EmptyString :: split_ws s'
               else match split_ws s' with
                    | w :: ws => String c w :: ws
                    | [] => [String c EmptyString]
                    end
           end
  end.

Fixpoint lstrip (s : string) : string :=
  match s with
  | EmptyString => EmptyString
  | String c s' => if isspace c then lstrip s' else s
  end.

Fixpoint rstrip (s : string) : string :=
  match s with
  | EmptyString => EmptyString
  | String c s' =>
      match rstrip s' with
      | EmptyString => if isspace c then EmptyString else String c EmptyString
      | r => String c r
      end
  end.

(** [s.strip()] *)
Definition strip (s : string) : string := rstrip (lstrip s).

(** Truth value of a string in a condition: non-empty. *)
Definition truthy (s : string) : bool :=
  match s with EmptyString => false | String _ _ => true end.

(** [re.search(r'(\d{2}:\d{2}:\d{2})', s)] anchored at the start of [s]. *)
Definition match_timestamp_here (s : string) : option string :=
  match s with
  | String d1 (String d2 (String c1 (String d3 (String d4
      (String c2 (String d5 (String d6 _))))))) =>
      if isdecimal d1 && isdecimal d2 && bool_decide (c1 = ":"%char)
         && isdecimal d3 && isdecimal d4 && bool_decide (c2 = ":"%char)
         && isdecimal d5 && isdecimal d6
      then Some (String d1 (String d2 (String c1 (String d3 (String d4
                   (String c2 (String d5 (String d6 EmptyString))))))))
      else None
  | _ => None
  end.

(** [re.search(r'(\d{2}:\d{2}:\d{2})', s)], then [match.group(0)]: the
    leftmost match, [None] when there is none. *)
Fixpoint re_search_timestamp (s : string) : option string :=
  match match_timestamp_here s with
  | Some m => Some m
  | None =>
      match s with
      | EmptyString => None
      | String _ s' => re_search_timestamp s'
      end
  end.

Definition hex_digit (n : N) : ascii :=
  if (n <? 10)%N then ascii_of_N (48 + n) else ascii_of_N (87 + n).

Definition hex_escape (c : ascii) : string :=
  String "\" (String "x" (String (hex_digit (code c / 16))
    (String (hex_digit (code c mod 16)) EmptyString))).

Fixpoint has_char (q : ascii) (s : string) : bool :=
  match s with
  | EmptyString => false
  | String c s' => bool_decide (c = q) || has_char q s'
  end.

Definition apostrophe : ascii := "'"%char.
Definition dquote : ascii := ascii_of_N 34.

(** The quote [repr] picks: a double quote only when the string has an
    apostrophe and no double quote. *)
Definition repr_quote (s : string) : ascii :=
  if has_char apostrophe s && negb (has_char dquote s) then dquote else apostrophe.

Definition repr_char (q c : ascii) : string :=
  if bool_decide (c = q) || bool_decide (c = "\"%char) then String "\" (String c EmptyString)
  else if bool_decide (c = "009"%char) then String "\" (String "t" EmptyString)
  else if bool_decide (c = "010"%char) then String "\" (String "n" EmptyString)
  else if bool_decide (c = "013"%char) then String "\" (String "r" EmptyString)
  else if between 0 31 c || between 127 160 c || (code c =? 173)%N then hex_escape c
  else String c EmptyString.

Fixpoint repr_body (q : ascii) (s : string) : string :=
  match s with
  | EmptyString => EmptyString
  | String c s' => repr_char q c +:+ repr_body q s'
  end.

(** [repr(s)] for a [str] *)
Definition repr (s : string) : string :=
  let q := repr_quote s in
  String q (repr_body q s +:+ String q EmptyString).

Fixpoint join (sep : string) (l : list string) : string :=
  match l with
  | [] => EmptyString
  | [x] => x
  | x :: l' => x +:+ sep +:+ join sep l'
  end.

(** [str(l)] for a list of [str], as an f-string renders it. *)
Definition str_of_list (l : list string) : string :=
  "[" +:+ join ", " (map repr l) +:+ "]".

End PyStr.

Definition nl : string := String "010" EmptyString.

(** A [for] loop whose body may raise: the state is threaded through the
    elements from left to right, and the first exception ends the loop. *)
Fixpoint for_each {S A : Type} (body : S → A → option S) (l : list A) (s : S)
  : option S :=
  match l with
  | [] => Some s
  | x :: l' => s' ← body s x; for_each body l' s'
  end.

(** ** Timestamp Locator: [extract_timestamps] *)

(** [claim.split(':')[0]] *)
Definition claim_topic (claim : string) : option string :=
  PyStr.split_on ":" claim !! 0%nat.

(** [any(word.lower() in line.lower() for word in keyword.split())] *)
Definition any_word_in_line (keyword line : string) : bool :=
  existsb (λ word, PyStr.contains (PyStr.lower word) (PyStr.lower line))
          (PyStr.split_ws keyword).

(** [timestamps[keyword].append(x)]: a [KeyError] when the key is absent. *)
Definition dict_append (keyword x : string) (timestamps : gmap string (list string))
  : option (gmap string (list string)) :=
  l ← timestamps !! keyword; Some (<[keyword := l ++ [x]]> timestamps).

(** Body of the inner loop, lines 35 to 38. *)
Definition scan_line (keyword : string) (timestamps : gmap string (list string))
    (line : string) : option (gmap string (list string)) :=
  if any_word_in_line keyword line then
    match PyStr.re_search_timestamp line with
    | Some m => dict_append keyword m timestamps
    | None => Some timestamps
    end
  else Some timestamps.

(** Body of the outer loop, lines 32 to 38. *)
Definition scan_claim (transcript : string) (timestamps : gmap string (list string))
    (claim : string) : option (gmap string (list string)) :=
  keyword ← claim_topic claim;
  for_each (scan_line keyword) (PyStr.split_on "010" transcript)
           (<[keyword := []]> timestamps).

Definition extract_timestamps (transcript claims : string)
  : option (gmap string (list string)) :=
  for_each (scan_claim transcript) (PyStr.split_on "010" claims) ∅.

(** ** The outside world *)

(** What the program asks of the network, in the order it asks. *)
Inductive event : Type :=
| ChatCompletion (model prompt : string)
| HttpGet (url user_agent : string).

(** A computation that reads and extends the history of requests and may
    raise. *)
Definition IO (A : Type) : Type := list event → option (A * list event).

Definition io_ret {A : Type} (a : A) : IO A := λ w, Some (a, w).

Definition io_bind {A B : Type} (m : IO A) (k : A → IO B) : IO B :=
  λ w, match m w with
       | Some (a, w') => k a w'
       | None => None
       end.

Definition io_lift {A : Type} (o : option A) : IO A :=
  λ w, match o with
       | Some a => Some (a, w)
       | None => None
       end.

Notation "'do' x <- m ; k" := (io_bind m (λ x, k))
  (at level 10, x name, m at level 100, k at level 200).

Fixpoint io_for_each {S A : Type} (body : S → A → IO S) (l : list A) (s : S)
  : IO S :=
  match l with
  | [] => io_ret s
  | x :: l' => do s' <- body s x; io_for_each body l' s'
  end.

(** [extract_timestamps] as the report builder calls it: no request is made. *)
Definition timestamp_locator (transcript claims : string)
  : IO (gmap string (list string)) :=
  io_lift (extract_timestamps transcript claims).

Section Pipeline.

(** [openai.ChatCompletion.create(model, messages=[user prompt])], then
    [response["choices"][0]["message"]["content"]]: the answer may depend on
    everything requested so far; [None] is a raised exception. *)
Variable chat_completion_create : list event → string → string → option string.

(** [requests.get(url, headers={"User-Agent": ua}).text] *)
Variable requests_get : list event → string → string → option string.

(** [BeautifulSoup(text, 'html.parser').find_all('a', href=True)], each anchor
    read at ['href'], in document order. *)
Variable find_all_a_href : string → list string.

Definition chat (prompt : string) : IO string :=
  λ w, r ← chat_completion_create w "gpt-4o" prompt;
       Some (r, w ++ [ChatCompletion "gpt-4o" prompt]).

Definition http_get (url user_agent : string) : IO string :=
  λ w, r ← requests_get w url user_agent;
       Some (r, w ++ [HttpGet url user_agent]).

Definition extract_claims (transcript : string) : IO string :=
  chat (nl +:+ "    Given the following transcript:" +:+ nl
        +:+ "    " +:+ transcript +:+ nl
        +:+ "    Identify strong claims, especially scientific or technical in nature. " +:+ nl
        +:+ "    List each claim separately along with any sources mentioned." +:+ nl
        +:+ "    ").

Definition verify_claims (claims : string) : IO string :=
  chat (nl +:+ "    Given the following list of claims:" +:+ nl
        +:+ "    " +:+ claims +:+ nl
        +:+ "    Compare each claim with established scientific literature and consensus." +:+ nl
        +:+ "    Provide an accuracy assessment for each claim along with links to relevant sources." +:+ nl
        +:+ "    ").

(** ** Source Fetcher: [fetch_source_links] *)

Definition search_url (query : string) : string :=
  "https://www.google.com/search?q=" +:+ query
  +:+ " site:cdc.gov OR site:who.int OR site:epa.gov OR site:nejm.org OR site:ncbi.nlm.nih.gov".

(** The condition of line 51. *)
Definition is_source_link (href : string) : bool :=
  PyStr.contains "http" href && negb (PyStr.contains "google" href).

(** Body of the loop, lines 50 to 52. *)
Definition keep_link (links : list string) (href : string) : list string :=
  if is_source_link href then links ++ [href] else links.

(** Lines 48 to 53, from the anchors of the page on. *)
Definition top_links (hrefs : list string) : list string :=
  take 3 (fold_left keep_link hrefs []).

Definition fetch_source_links (query : string) : IO (list string) :=
  do text <- http_get (search_url query) "Mozilla/5.0";
  io_ret (top_links (find_all_a_href text)).

(** ** Report Builder: [generate_final_report] *)

Definition report_header : string :=
  ("# Video Claim Analysis Report" +:+ nl +:+ nl)
  +:+ ("## Strong Claims and Their Evaluation" +:+ nl +:+ nl).

(** Line 75 *)
Definition add_source (report source : string) : string :=
  report +:+ ("- [" +:+ source +:+ "](" +:+ source +:+ ")" +:+ nl).

(** Lines 69 to 76: the section of one claim, appended to the report. *)
Definition add_section (timestamps : gmap string (list string))
    (verified_claims report topic claim : string) (sources : list string) : string :=
  let report := report +:+ ("### " +:+ topic +:+ nl) in
  let report := report +:+ ("**Claim:** " +:+ claim +:+ nl +:+ nl) in
  let report := report +:+ ("**Timestamps:** "
      +:+ PyStr.str_of_list (default ["N/A"] (timestamps !! topic)) +:+ nl +:+ nl) in
  let report := report +:+ ("**Verification:** " +:+ verified_claims +:+ nl +:+ nl) in
  let report := report +:+ ("**Relevant Sources:**" +:+ nl) in
  let report := fold_left add_source sources report in
  report +:+ (nl +:+ "---" +:+ nl).

(** Body of the loop, lines 65 to 76. *)
Definition report_claim (timestamps : gmap string (list string))
    (verified_claims report claim : string) : IO string :=
  if PyStr.truthy (PyStr.strip claim) then
    do topic <- io_lift (claim_topic claim);
    do sources <- fetch_source_links topic;
    io_ret (add_section timestamps verified_claims report topic claim sources)
  else io_ret report.

Definition generate_final_report (transcript : string) : IO string :=
  do claims <- extract_claims transcript;
  do verified_claims <- verify_claims claims;
  do timestamps <- timestamp_locator transcript claims;
  io_for_each (report_claim timestamps verified_claims)
              (PyStr.split_on "010" claims) report_header.

End Pipeline.

(** ** Vocabulary of the specification *)

(** [s] is a substring of [line]. *)
Definition occurs_in (s line : string) : Prop :=
  ∃ a b, line = a +:+ s +:+ b.

(** Two digits, colon, two digits, colon, two digits: eight characters. *)
Definition is_timestamp (s : string) : Prop :=
  ∃ d1 d2 d3 d4 d5 d6 : ascii,
    Forall (λ d, PyStr.isdecimal d = true) [d1; d2; d3; d4; d5; d6]
    ∧ s = String d1 (String d2 (String ":" (String d3 (String d4
            (String ":" (String d5 (String d6 EmptyString))))))).

Definition has_timestamp (line : string) : Prop :=
  ∃ m, is_timestamp m ∧ occurs_in m line.

(** [m] is the leftmost timestamp of [line]. *)
Definition first_timestamp (line m : string) : Prop :=
  is_timestamp m ∧
  ∃ a b, line = a +:+ m +:+ b ∧
    ∀ a' m' b', is_timestamp m' → line = a' +:+ m' +:+ b' →
      String.length a ≤ String.length a'.

(** [word] is a substring of [line] up to the case of the letters. *)
Definition occurs_in_ignoring_case (word line : string) : Prop :=
  ∃ s, occurs_in s line ∧ PyStr.lower s = PyStr.lower word.

(** Some whitespace-delimited word of the topic occurs in the line. *)
Definition topic_word_in_line (keyword line : string) : Prop :=
  ∃ word, word ∈ PyStr.split_ws keyword ∧ occurs_in_ignoring_case word line.

(** Blank or made of whitespace only. *)
Definition whitespace_only (s : string) : Prop :=
  Forall (λ c, PyStr.isspace c = true) (list_ascii_of_string s).

(** What one transcript line adds to the list of a topic. *)
Definition line_timestamps (keyword line : string) : list string :=
  if any_word_in_line keyword line
  then option_list (PyStr.re_search_timestamp line)
  else [].

(** The list a single claim line with topic [keyword] produces. *)
Definition topic_timestamps (transcript keyword : string) : list string :=
  concat (map (line_timestamps keyword) (PyStr.split_on "010" transcript)).

(** The hrefs the source fetcher keeps, as the specification words it. *)
Definition qualifying (href : string) : Prop :=
  occurs_in "http" href ∧ ¬ occurs_in "google" href.

(** ** Inputs of the end-to-end scenarios *)

Definition scenario_line_1 : string :=
  "00:01:15 Vaccines cause autism, according to some.".

Definition scenario_line_2 : string := "00:02:30 This has been studied.".

Definition scenario_transcript : string :=
  scenario_line_1 +:+ nl +:+ scenario_line_2.

Definition scenario_claims : string := "Vaccines: cause autism claim".

Definition scenario_anchors : list string :=
  ["https://www.google.com/x"; "https://cdc.gov/y"; "https://who.int/z"; "/relative"].

(** A claim text whose second line is empty. *)
Definition claims_with_empty_line : string :=
  "Vaccines: cause autism claim" +:+ nl +:+ nl +:+ "Masks: reduce transmission".

(** A claim text in which two lines share the topic [Vaccines]. *)
Definition claims_with_repeated_topic : string :=
  "Vaccines: cause autism claim" +:+ nl +:+ "Vaccines: are studied".

(** The index has keys only for the topics of the non-empty claim lines. *)
Definition keys_only_of_nonempty_lines (transcript claims : string) : Prop :=
  ∀ (idx : gmap string (list string)) k,
    extract_timestamps transcript claims = Some idx → is_Some (idx !! k) →
    ∃ claim, claim ∈ PyStr.split_on "010" claims ∧ claim ≠ ""
             ∧ claim_topic claim = Some k.

(** The topic of a claim line without colon is the trimmed line. *)
Definition topic_is_trimmed_line (claim : string) : Prop :=
  ¬ occurs_in ":" claim → claim_topic claim = Some (PyStr.strip claim).

(** ** A world for the report builder: one claim, no timestamp in the
    transcript *)

Definition one_claim_model : list event → string → string → option string :=
  λ _ _ _, Some "Vaccines: cause autism claim".

Definition empty_page : list event → string → string → option string :=
  λ _ _ _, Some "<html><body></body></html>".

Definition no_anchor : string → list string := λ _, [].

Definition scenario_page_anchors : string → list string := λ _, scenario_anchors.

Definition transcript_without_timestamp : string :=
  "Some say vaccines cause autism.".

(** The report the source produces in that world. *)
Definition report_without_timestamp : string :=
  "# Video Claim Analysis Report" +:+ nl +:+ nl
  +:+ "## Strong Claims and Their Evaluation" +:+ nl +:+ nl
  +:+ "### Vaccines" +:+ nl
  +:+ "**Claim:** Vaccines: cause autism claim" +:+ nl +:+ nl
  +:+ "**Timestamps:** []" +:+ nl +:+ nl
  +:+ "**Verification:** Vaccines: cause autism claim" +:+ nl +:+ nl
  +:+ "**Relevant Sources:**" +:+ nl
  +:+ nl +:+ "---" +:+ nl.

(** ** Vocabulary for the report builder *)

(** The text sent by [extract_claims], lines 8 to 13. *)
Definition claims_prompt (transcript : string) : string :=
  nl +:+ "    Given the following transcript:" +:+ nl
  +:+ "    " +:+ transcript +:+ nl
  +:+ "    Identify strong claims, especially scientific or technical in nature. " +:+ nl
  +:+ "    List each claim separately along with any sources mentioned." +:+ nl
  +:+ "    ".

(** The text sent by [verify_claims], lines 19 to 24. *)
Definition verification_prompt (claims : string) : string :=
  nl +:+ "    Given the following list of claims:" +:+ nl
  +:+ "    " +:+ claims +:+ nl
  +:+ "    Compare each claim with established scientific literature and consensus." +:+ nl
  +:+ "    Provide an accuracy assessment for each claim along with links to relevant sources." +:+ nl
  +:+ "    ".

(** The claim lines that pass the test of line 65, in order. *)
Definition nonblank_lines (claims : string) : list string :=
  List.filter (λ claim, PyStr.truthy (PyStr.strip claim))
              (PyStr.split_on "010" claims).

(** The topics of the lines of a claim text, in order. *)
Definition claim_topics (claims : string) : list string :=
  omap claim_topic (PyStr.split_on "010" claims).

Definition concat_strings (l : list string) : string :=
  foldr String.append EmptyString l.

Definition source_bullet (source : string) : string :=
  "- [" +:+ source +:+ "](" +:+ source +:+ ")" +:+ nl.

(** The text lines 69 to 76 add to the report for one claim, [shown] being
    the list printed in the timestamps field. *)
Definition section_text (shown : list string)
    (verified_claims topic claim : string) (sources : list string) : string :=
  ("### " +:+ topic +:+ nl)
  +:+ ("**Claim:** " +:+ claim +:+ nl +:+ nl)
  +:+ ("**Timestamps:** " +:+ PyStr.str_of_list shown +:+ nl +:+ nl)
  +:+ ("**Verification:** " +:+ verified_claims +:+ nl +:+ nl)
  +:+ ("**Relevant Sources:**" +:+ nl)
  +:+ concat_strings (map source_bullet sources)
  +:+ (nl +:+ "---" +:+ nl).

(** One section of a report: the claim line, its topic and the links the
    search gave for it. *)
Record section_of_report : Type := {
  sec_claim : string;
  sec_topic : string;
  sec_sources : list string
}.

(** A timestamp between apostrophes, as [repr] prints it. *)
Definition quoted (m : string) : string := "'" +:+ m +:+ "'".

(** Worlds in which a service is down. *)
Definition model_down : list event → string → string → option string :=
  λ _ _ _, None.

Definition search_down : list event → string → string → option string :=
  λ _ _ _, None.

(** * Properties *)

Example lower_ex : PyStr.lower "Vaccines AND Zz[@" = "vaccines and zz[@".
Proof. reflexivity. Qed.

Example split_on_ex :
  PyStr.split_on ":" "a:b::c" = ["a"; "b"; ""; "c"] /\ PyStr.split_on ":" "" = [""]
  /\ PyStr.split_on ":" "ab:" = ["ab"; ""].
Proof. repeat split. Qed.

Example split_ws_ex :
  PyStr.split_ws "  Global  warming is " = ["Global"; "warming"; "is"]
  /\ PyStr.split_ws "   " = [] /\ PyStr.split_ws "x" = ["x"].
Proof. repeat split. Qed.

Example strip_ex : PyStr.strip "  a b  " = "a b" /\ PyStr.strip "   " = "".
Proof. repeat split. Qed.

Example re_search_ex :
  PyStr.re_search_timestamp "at 1:02:03 or 00:01:15 and 00:02:30" = Some "00:01:15"
  /\ PyStr.re_search_timestamp "no stamp 0:1:2" = None
  /\ PyStr.re_search_timestamp "123:45:678" = Some "23:45:67".
Proof. repeat split. Qed.

Example str_of_list_ex :
  PyStr.str_of_list ["00:01:15"; "00:02:30"] = "['00:01:15', '00:02:30']"
  /\ PyStr.str_of_list [] = "[]" /\ PyStr.str_of_list ["N/A"] = "['N/A']".
Proof. repeat split. Qed.

(** ** Strings *)

Lemma str_app_cons c s t : String c s +:+ t = String c (s +:+ t).
Proof. reflexivity. Qed.

Lemma str_app_nil_l s : "" +:+ s = s.
Proof. reflexivity. Qed.

Lemma str_app_nil_r s : s +:+ "" = s.
Proof. induction s as [|c s IH]; [done|]. by rewrite str_app_cons, IH. Qed.

Lemma str_app_assoc a b c : (a +:+ b) +:+ c = a +:+ b +:+ c.
Proof. induction a as [|x a IH]; [done|]. by rewrite !str_app_cons, IH. Qed.

Lemma str_length_app a b :
  String.length (a +:+ b) = String.length a + String.length b.
Proof. induction a as [|x a IH]; [done|]. rewrite str_app_cons. simpl. by rewrite IH. Qed.

Lemma startswith_spec p s : PyStr.startswith p s = true ↔ ∃ b, s = p +:+ b.
Proof.
  revert s. induction p as [|a p IH]; intros s; simpl.
  - split; [intros _; by exists s|done].
  - destruct s as [|b s].
    + split; [done|]. intros [r Hr]. by rewrite str_app_cons in Hr.
    + destruct (decide (a = b)) as [->|Hne].
      * rewrite IH. split; intros [r Hr]; exists r.
        -- by rewrite str_app_cons, Hr.
        -- rewrite str_app_cons in Hr. congruence.
      * split; [done|]. intros [r Hr]. rewrite str_app_cons in Hr. congruence.
Qed.

Lemma contains_spec needle hay :
  PyStr.contains needle hay = true ↔ occurs_in needle hay.
Proof.
  unfold occurs_in. induction hay as [|c hay IH]; simpl.
  - rewrite orb_false_r, startswith_spec. split.
    + intros [b Hb]. by exists "", b.
    + intros ([|x a] & b & Hb); [by exists b|]. by rewrite str_app_cons in Hb.
  - rewrite orb_true_iff, startswith_spec, IH. split.
    + intros [[b Hb]|(a & b & Hab)].
      * by exists "", b.
      * exists (String c a), b. by rewrite str_app_cons, Hab.
    + intros ([|x a] & b & Hab).
      * left. by exists b.
      * right. rewrite str_app_cons in Hab. exists a, b. congruence.
Qed.

Lemma contains_false needle hay :
  PyStr.contains needle hay = false ↔ ¬ occurs_in needle hay.
Proof. rewrite <- contains_spec. by destruct (PyStr.contains needle hay). Qed.

Lemma lower_app a b : PyStr.lower (a +:+ b) = PyStr.lower a +:+ PyStr.lower b.
Proof. induction a as [|x a IH]; [done|]. rewrite str_app_cons. simpl. by rewrite IH. Qed.

Lemma lower_split s x y :
  PyStr.lower s = x +:+ y →
  ∃ s1 s2, s = s1 +:+ s2 ∧ PyStr.lower s1 = x ∧ PyStr.lower s2 = y.
Proof.
  revert s. induction x as [|c x IH]; intros s Hs.
  - by exists "", s.
  - destruct s as [|d s]; [done|]. rewrite str_app_cons in Hs. simpl in Hs.
    injection Hs as Hc Hs. destruct (IH _ Hs) as (s1 & s2 & -> & H1 & H2).
    exists (String d s1), s2. simpl. by rewrite Hc, H1.
Qed.

Lemma contains_lower_spec word line :
  PyStr.contains (PyStr.lower word) (PyStr.lower line) = true
  ↔ occurs_in_ignoring_case word line.
Proof.
  rewrite contains_spec. unfold occurs_in_ignoring_case, occurs_in. split.
  - intros (a & b & Hl).
    destruct (lower_split _ _ _ Hl) as (s1 & r & -> & _ & Hr).
    destruct (lower_split _ _ _ Hr) as (s & s2 & -> & Hs & _).
    exists s. split; [by exists s1, s2|done].
  - intros (s & (a & b & ->) & Hs).
    exists (PyStr.lower a), (PyStr.lower b). by rewrite !lower_app, Hs.
Qed.

Lemma any_word_in_line_spec keyword line :
  any_word_in_line keyword line = true ↔ topic_word_in_line keyword line.
Proof.
  unfold any_word_in_line, topic_word_in_line. rewrite existsb_exists.
  split; intros (w & Hw & H); exists w.
  - split; [by apply list_elem_of_In|by apply contains_lower_spec].
  - split; [by apply list_elem_of_In|by apply contains_lower_spec].
Qed.

(** ** The regular expression *)

Lemma match_timestamp_here_Some s m :
  PyStr.match_timestamp_here s = Some m → is_timestamp m ∧ ∃ b, s = m +:+ b.
Proof.
  unfold PyStr.match_timestamp_here.
  destruct s as [|d1 [|d2 [|c1 [|d3 [|d4 [|c2 [|d5 [|d6 r]]]]]]]]; try done.
  destruct (_ && _) eqn:E; [|done]. intros [= <-].
  do 7 (apply andb_true_iff in E as [E ?]).
  repeat match goal with
         | H : bool_decide _ = true |- _ => apply bool_decide_eq_true in H; subst
         end.
  split; [|by exists r].
  exists d1, d2, d3, d4, d5, d6. split; [|done].
  repeat constructor; done.
Qed.

Lemma match_timestamp_here_None s m b :
  PyStr.match_timestamp_here s = None → is_timestamp m → s ≠ m +:+ b.
Proof.
  intros Hnone (d1 & d2 & d3 & d4 & d5 & d6 & HF & ->) ->.
  repeat (apply Forall_cons in HF as [? HF]).
  rewrite !str_app_cons in Hnone. unfold PyStr.match_timestamp_here in Hnone.
  repeat match goal with
         | H : PyStr.isdecimal _ = true |- _ => rewrite H in Hnone; clear H
         end.
  by rewrite !bool_decide_eq_true_2 in Hnone.
Qed.

Lemma re_search_timestamp_Some line m :
  PyStr.re_search_timestamp line = Some m → first_timestamp line m.
Proof.
  unfold first_timestamp. induction line as [|c line IH].
  - simpl. done.
  - cbn [PyStr.re_search_timestamp].
    destruct (PyStr.match_timestamp_here (String c line)) as [m0|] eqn:Hhere.
    + intros [= <-]. apply match_timestamp_here_Some in Hhere as [Hm [b Hb]].
      split; [done|]. exists "", b. split; [done|]. simpl. lia.
    + intros Hs. destruct (IH Hs) as (Hm & a & b & -> & Hleft).
      split; [done|]. exists (String c a), b. split; [done|].
      intros [|x a'] m' b' Hm' Heq.
      * by destruct (match_timestamp_here_None _ m' b' Hhere Hm').
      * rewrite str_app_cons in Heq. injection Heq as _ Heq.
        simpl. specialize (Hleft _ _ _ Hm' Heq). lia.
Qed.

Lemma re_search_timestamp_None line :
  PyStr.re_search_timestamp line = None → ¬ has_timestamp line.
Proof.
  unfold has_timestamp, occurs_in. induction line as [|c line IH].
  - intros _ (m & Hm & a & b & Heq).
    destruct a; [|done]. destruct Hm as (? & ? & ? & ? & ? & ? & _ & ->). done.
  - cbn [PyStr.re_search_timestamp].
    destruct (PyStr.match_timestamp_here (String c line)) eqn:Hhere; [done|].
    intros Hs (m & Hm & [|x a] & b & Heq).
    + by destruct (match_timestamp_here_None _ m b Hhere Hm).
    + rewrite str_app_cons in Heq. injection Heq as _ Heq.
      apply (IH Hs). by exists m; split; [|exists a, b].
Qed.

Lemma first_timestamp_has line m : first_timestamp line m → has_timestamp line.
Proof. intros (Hm & a & b & Heq & _). exists m. split; [done|by exists a, b]. Qed.

Lemma is_timestamp_length m : is_timestamp m → String.length m = 8.
Proof. by intros (? & ? & ? & ? & ? & ? & _ & ->). Qed.

(** ** One transcript line *)

Lemma line_timestamps_spec keyword line :
  (has_timestamp line ∧ topic_word_in_line keyword line →
     ∃ m, line_timestamps keyword line = [m] ∧ first_timestamp line m)
  ∧ (¬ (has_timestamp line ∧ topic_word_in_line keyword line) →
     line_timestamps keyword line = []).
Proof.
  unfold line_timestamps.
  destruct (any_word_in_line keyword line) eqn:Hany.
  - apply any_word_in_line_spec in Hany.
    destruct (PyStr.re_search_timestamp line) as [m|] eqn:Hre.
    + apply re_search_timestamp_Some in Hre. split.
      * intros _. by exists m.
      * intros []. split; [by eapply first_timestamp_has|done].
    + apply re_search_timestamp_None in Hre. split; [|done]. by intros [? _].
  - split; [|done]. intros [_ Hw]. apply any_word_in_line_spec in Hw. congruence.
Qed.

Lemma line_timestamps_shape keyword line :
  Forall is_timestamp (line_timestamps keyword line).
Proof.
  unfold line_timestamps. destruct (any_word_in_line keyword line); [|done].
  destruct (PyStr.re_search_timestamp line) as [m|] eqn:Hre; [|done].
  apply re_search_timestamp_Some in Hre as [Hm _]. by repeat constructor.
Qed.

Lemma topic_timestamps_shape transcript keyword :
  Forall is_timestamp (topic_timestamps transcript keyword).
Proof.
  unfold topic_timestamps. induction (PyStr.split_on "010" transcript); simpl.
  - done.
  - apply Forall_app. split; [apply line_timestamps_shape|done].
Qed.

(** ** The loops of [extract_timestamps] *)

Lemma scan_line_spec keyword line (d : gmap string (list string)) l :
  d !! keyword = Some l →
  scan_line keyword d line = Some (<[keyword := l ++ line_timestamps keyword line]> d).
Proof.
  intros Hd. unfold scan_line, line_timestamps, dict_append.
  destruct (any_word_in_line keyword line).
  - destruct (PyStr.re_search_timestamp line) as [m|]; simpl.
    + by rewrite Hd.
    + by rewrite app_nil_r, insert_id.
  - by rewrite app_nil_r, insert_id.
Qed.

Lemma scan_lines_spec keyword lines (d : gmap string (list string)) l :
  d !! keyword = Some l →
  for_each (scan_line keyword) lines d
  = Some (<[keyword := l ++ concat (map (line_timestamps keyword) lines)]> d).
Proof.
  revert d l. induction lines as [|line lines IH]; intros d l Hd; simpl.
  - by rewrite app_nil_r, insert_id.
  - rewrite (scan_line_spec _ _ _ _ Hd). simpl.
    rewrite (IH _ (l ++ line_timestamps keyword line)) by apply lookup_insert_eq.
    by rewrite insert_insert_eq, app_assoc.
Qed.

Lemma split_on_cons sep s : ∃ w ws, PyStr.split_on sep s = w :: ws.
Proof.
  induction s as [|c s (w & ws & IH)]; simpl; [by eauto|].
  destruct (decide (c = sep)); [by eauto|]. rewrite IH. eauto.
Qed.

Lemma claim_topic_is_Some claim : is_Some (claim_topic claim).
Proof.
  unfold claim_topic. destruct (split_on_cons ":" claim) as (w & ws & ->). by exists w.
Qed.

Lemma scan_claim_spec transcript (d : gmap string (list string)) claim keyword :
  claim_topic claim = Some keyword →
  scan_claim transcript d claim
  = Some (<[keyword := topic_timestamps transcript keyword]> d).
Proof.
  intros Hk. unfold scan_claim. rewrite Hk. simpl.
  rewrite (scan_lines_spec _ _ _ []) by apply lookup_insert_eq.
  by rewrite insert_insert_eq.
Qed.

Lemma scan_claims_spec transcript lines (d : gmap string (list string)) :
  ∃ idx, for_each (scan_claim transcript) lines d = Some idx ∧
    ∀ k, ((∃ claim, claim ∈ lines ∧ claim_topic claim = Some k)
          ∧ idx !! k = Some (topic_timestamps transcript k))
       ∨ ((∀ claim, claim ∈ lines → claim_topic claim ≠ Some k)
          ∧ idx !! k = d !! k).
Proof.
  revert d. induction lines as [|claim lines IH]; intros d; simpl.
  - exists d. split; [done|]. intros k. right. split; [|done].
    intros claim Hin. by apply elem_of_nil in Hin.
  - destruct (claim_topic_is_Some claim) as [k0 Hk0].
    rewrite (scan_claim_spec _ _ _ _ Hk0). simpl.
    destruct (IH (<[k0 := topic_timestamps transcript k0]> d)) as (idx & -> & Hidx).
    exists idx. split; [done|]. intros k.
    destruct (Hidx k) as [[(c & Hc & Hck) Hl]|[Hnone Hl]].
    + left. split; [|done]. exists c. split; [by apply elem_of_cons; right|done].
    + destruct (decide (k0 = k)) as [->|Hne].
      * left. split; [exists claim; split; [apply elem_of_cons; by left|done]|].
        by rewrite Hl, lookup_insert_eq.
      * right. split.
        -- intros c [->|Hc]%elem_of_cons; [congruence|by apply Hnone].
        -- by rewrite Hl, lookup_insert_ne.
Qed.

(** [extract_timestamps] always returns, and the index holds, for exactly the
    topics of the lines of the claim text, the list one scan of the
    transcript produces. *)
Lemma extract_timestamps_spec transcript claims :
  ∃ idx, extract_timestamps transcript claims = Some idx ∧
    ∀ k, ((∃ claim, claim ∈ PyStr.split_on "010" claims ∧ claim_topic claim = Some k)
          ∧ idx !! k = Some (topic_timestamps transcript k))
       ∨ ((∀ claim, claim ∈ PyStr.split_on "010" claims → claim_topic claim ≠ Some k)
          ∧ idx !! k = None).
Proof.
  destruct (scan_claims_spec transcript (PyStr.split_on "010" claims) ∅)
    as (idx & Hrun & Hidx).
  exists idx. split; [done|]. intros k.
  destruct (Hidx k) as [?|[? Hl]]; [by left|right]. by rewrite Hl.
Qed.

Lemma extract_timestamps_lookup transcript claims claim keyword :
  claim ∈ PyStr.split_on "010" claims → claim_topic claim = Some keyword →
  ∃ idx, extract_timestamps transcript claims = Some idx
         ∧ idx !! keyword = Some (topic_timestamps transcript keyword).
Proof.
  intros Hin Hk. destruct (extract_timestamps_spec transcript claims) as (idx & Hrun & Hidx).
  exists idx. split; [done|].
  destruct (Hidx keyword) as [[_ ?]|[Hnone _]]; [done|]. by destruct (Hnone _ Hin).
Qed.

Lemma split_on_piece sep s w :
  w ∈ PyStr.split_on sep s → PyStr.split_on sep w = [w].
Proof.
  revert w. induction s as [|c s IH]; intros w; simpl.
  - by intros ->%list_elem_of_singleton.
  - destruct (decide (c = sep)) as [->|Hne].
    + intros [->|Hin]%elem_of_cons; [done|by apply IH].
    + destruct (split_on_cons sep s) as (w0 & ws & Hs). rewrite Hs in IH |- *.
      intros [->|Hin]%elem_of_cons.
      * simpl. destruct (decide (c = sep)); [done|].
        rewrite (IH w0) by (apply elem_of_cons; by left). done.
      * apply IH. apply elem_of_cons. by right.
Qed.

Lemma split_on_absent sep s :
  ¬ occurs_in (String sep "") s → PyStr.split_on sep s = [s].
Proof.
  induction s as [|c s IH]; intros Hno; simpl; [done|].
  destruct (decide (c = sep)) as [->|Hne].
  - destruct Hno. by exists "", s.
  - rewrite IH; [done|]. intros (a & b & ->). apply Hno.
    by exists (String c a), b.
Qed.

(** ** Timestamp Locator *)

(** C1. For every transcript line and every topic derived from a claim line,
    the line adds a timestamp to the list of the topic if and only if it
    contains a substring of the shape two digits, colon, two digits, colon,
    two digits and some whitespace-delimited word of the topic occurs in it
    up to case; such a line adds exactly one timestamp, its leftmost one.
    The list of the topic is what the lines add, in transcript order. *)
Theorem extract_timestamps_line_contribution transcript claims claim keyword :
  claim ∈ PyStr.split_on "010" claims → claim_topic claim = Some keyword →
  ∃ (idx : gmap string (list string)) contributions,
    extract_timestamps transcript claims = Some idx
    ∧ idx !! keyword = Some (concat contributions)
    ∧ Forall2 (λ line c,
         (has_timestamp line ∧ topic_word_in_line keyword line →
            ∃ m, c = [m] ∧ first_timestamp line m)
         ∧ (¬ (has_timestamp line ∧ topic_word_in_line keyword line) → c = []))
       (PyStr.split_on "010" transcript) contributions.
Proof.
  intros Hin Hk.
  destruct (extract_timestamps_lookup transcript _ _ _ Hin Hk) as (idx & Hrun & Hl).
  exists idx, (map (line_timestamps keyword) (PyStr.split_on "010" transcript)).
  split; [done|]. split; [done|].
  induction (PyStr.split_on "010" transcript) as [|line lines IH]; simpl.
  - constructor.
  - constructor; [apply line_timestamps_spec|apply IH].
Qed.

Lemma extract_timestamps_line_contribution_witness :
  ∃ (idx : gmap string (list string)) contributions,
    extract_timestamps scenario_transcript scenario_claims = Some idx
    ∧ idx !! "Vaccines" = Some (concat contributions)
    ∧ Forall2 (λ line c,
         (has_timestamp line ∧ topic_word_in_line "Vaccines" line →
            ∃ m, c = [m] ∧ first_timestamp line m)
         ∧ (¬ (has_timestamp line ∧ topic_word_in_line "Vaccines" line) → c = []))
       (PyStr.split_on "010" scenario_transcript) contributions.
Proof.
  apply (extract_timestamps_line_contribution
           scenario_transcript scenario_claims scenario_claims "Vaccines").
  - apply list_elem_of_In. vm_compute. by left.
  - reflexivity.
Defined.

(** C6. On the two-line transcript and the claim [Vaccines: cause autism
    claim], the index maps the topic [Vaccines] to exactly [00:01:15]: the
    first line holds the topic word and adds its timestamp, the second holds
    no topic word and adds nothing. *)
Theorem extract_timestamps_scenario_1 :
  claim_topic scenario_claims = Some "Vaccines"
  ∧ PyStr.split_on "010" scenario_transcript = [scenario_line_1; scenario_line_2]
  ∧ extract_timestamps scenario_transcript scenario_claims
    = Some {[ "Vaccines" := ["00:01:15"] ]}
  ∧ topic_word_in_line "Vaccines" scenario_line_1
  ∧ line_timestamps "Vaccines" scenario_line_1 = ["00:01:15"]
  ∧ ¬ topic_word_in_line "Vaccines" scenario_line_2
  ∧ line_timestamps "Vaccines" scenario_line_2 = [].
Proof.
  split; [reflexivity|]. split; [reflexivity|]. split; [reflexivity|].
  split; [by apply any_word_in_line_spec|]. split; [reflexivity|].
  split; [|reflexivity]. by intros H%any_word_in_line_spec.
Qed.

(** C9. Every string in every list of the returned index has exactly eight
    characters, of the shape two digits, colon, two digits, colon, two
    digits. *)
Theorem extract_timestamps_only_timestamps transcript claims :
  ∃ idx : gmap string (list string),
    extract_timestamps transcript claims = Some idx
    ∧ map_Forall
        (λ _ l, Forall (λ s, is_timestamp s ∧ String.length s = 8) l) idx.
Proof.
  destruct (extract_timestamps_spec transcript claims) as (idx & Hrun & Hidx).
  exists idx. split; [done|]. intros k l Hl.
  destruct (Hidx k) as [[_ Hk]|[_ Hk]]; [|congruence].
  assert (l = topic_timestamps transcript k) as -> by congruence.
  eapply Forall_impl; [apply topic_timestamps_shape|].
  intros s Hs. split; [done|by apply is_timestamp_length].
Qed.

Lemma extract_timestamps_only_timestamps_witness :
  ∃ idx : gmap string (list string),
    extract_timestamps scenario_transcript scenario_claims = Some idx
    ∧ Forall (λ s, is_timestamp s ∧ String.length s = 8) ["00:01:15"].
Proof.
  destruct (extract_timestamps_only_timestamps scenario_transcript scenario_claims)
    as (idx & Hrun & Hshape).
  exists idx. split; [exact Hrun|]. apply (Hshape "Vaccines").
  assert (idx = {[ "Vaccines" := ["00:01:15"] ]}) as ->; [|reflexivity].
  assert (Some idx = Some {[ "Vaccines" := ["00:01:15"] ]}) as Heq; [|by injection Heq].
  rewrite <- Hrun. reflexivity.
Defined.

(** C10. When several claim lines have the same topic, the list of that
    topic in the index is the list a single claim line with that topic
    produces: a later line starts the list anew, nothing accumulates. *)
Theorem extract_timestamps_repeated_topic transcript claims claim keyword :
  claim ∈ PyStr.split_on "010" claims → claim_topic claim = Some keyword →
  ∃ idx single : gmap string (list string),
    extract_timestamps transcript claims = Some idx
    ∧ extract_timestamps transcript claim = Some single
    ∧ single = {[ keyword := topic_timestamps transcript keyword ]}
    ∧ idx !! keyword = single !! keyword.
Proof.
  intros Hin Hk.
  destruct (extract_timestamps_lookup transcript _ _ _ Hin Hk) as (idx & Hrun & Hl).
  exists idx, {[ keyword := topic_timestamps transcript keyword ]}.
  split; [done|]. split.
  - unfold extract_timestamps. rewrite (split_on_piece _ _ _ Hin). simpl.
    rewrite (scan_claim_spec _ _ _ _ Hk). simpl. by rewrite insert_empty.
  - split; [done|]. by rewrite Hl, lookup_singleton_eq.
Qed.

Lemma extract_timestamps_repeated_topic_witness :
  ∃ idx single : gmap string (list string),
    extract_timestamps scenario_transcript claims_with_repeated_topic = Some idx
    ∧ extract_timestamps scenario_transcript "Vaccines: are studied" = Some single
    ∧ single = {[ "Vaccines" := topic_timestamps scenario_transcript "Vaccines" ]}
    ∧ idx !! "Vaccines" = single !! "Vaccines".
Proof.
  apply (extract_timestamps_repeated_topic
           scenario_transcript claims_with_repeated_topic "Vaccines: are studied").
  - apply list_elem_of_In. vm_compute. right. by left.
  - reflexivity.
Defined.

(** C7. [extract_timestamps] is deterministic: whatever has been requested
    from the network before, two runs on the same transcript and claims
    return the same index, and neither run makes a request. *)
Theorem extract_timestamps_deterministic transcript claims (w1 w2 : list event) :
  ∃ idx,
    timestamp_locator transcript claims w1 = Some (idx, w1)
    ∧ timestamp_locator transcript claims w2 = Some (idx, w2).
Proof.
  destruct (extract_timestamps_spec transcript claims) as (idx & Hrun & _).
  exists idx. unfold timestamp_locator, io_lift. by rewrite Hrun.
Qed.

Lemma topic_timestamps_empty_topic transcript : topic_timestamps transcript "" = [].
Proof.
  unfold topic_timestamps. by induction (PyStr.split_on "010" transcript).
Qed.

(** C3, as the code has it. For every claim line without a colon, the topic
    is the full claim line, unchanged: no whitespace is removed, and the line
    itself is the key of the index. *)
Theorem claim_topic_without_colon transcript claims claim :
  claim ∈ PyStr.split_on "010" claims → ¬ occurs_in ":" claim →
  claim_topic claim = Some claim
  ∧ ∃ idx : gmap string (list string),
      extract_timestamps transcript claims = Some idx
      ∧ idx !! claim = Some (topic_timestamps transcript claim).
Proof.
  intros Hin Hno.
  assert (claim_topic claim = Some claim) as Hk.
  { unfold claim_topic. by rewrite (split_on_absent ":" claim Hno). }
  split; [done|]. by apply (extract_timestamps_lookup _ _ claim).
Qed.

Lemma claim_topic_without_colon_witness :
  claim_topic "Global warming is accelerating" = Some "Global warming is accelerating"
  ∧ ∃ idx : gmap string (list string),
      extract_timestamps scenario_transcript "Global warming is accelerating" = Some idx
      ∧ idx !! "Global warming is accelerating"
        = Some (topic_timestamps scenario_transcript "Global warming is accelerating").
Proof.
  apply (claim_topic_without_colon scenario_transcript
           "Global warming is accelerating" "Global warming is accelerating").
  - apply list_elem_of_In. vm_compute. by left.
  - apply contains_false. reflexivity.
Defined.

(** C3, as stated, fails: a claim line without colon that starts and ends
    with a space has a topic that keeps both spaces. *)
Lemma topic_is_trimmed_line_counterexample :
  ¬ topic_is_trimmed_line " Global warming is accelerating ".
Proof.
  intros H. assert (¬ occurs_in ":" " Global warming is accelerating ") as Hno.
  { apply contains_false. reflexivity. }
  specialize (H Hno). vm_compute in H. discriminate H.
Qed.

(** C5, as the code has it. The index has a key exactly for the topic of
    each line of the claim text, empty lines included: the topic of an empty
    line is the empty string, and its list is empty. *)
Theorem extract_timestamps_keys transcript claims :
  ∃ idx : gmap string (list string),
    extract_timestamps transcript claims = Some idx
    ∧ (∀ k, is_Some (idx !! k)
            ↔ ∃ claim, claim ∈ PyStr.split_on "010" claims
                       ∧ claim_topic claim = Some k)
    ∧ claim_topic "" = Some ""
    ∧ ("" ∈ PyStr.split_on "010" claims → idx !! "" = Some []).
Proof.
  destruct (extract_timestamps_spec transcript claims) as (idx & Hrun & Hidx).
  exists idx. split; [done|]. split; [|split; [done|]].
  - intros k. destruct (Hidx k) as [[Hex Hl]|[Hnone Hl]]; rewrite Hl.
    + split; [done|]. by eexists.
    + split; [by intros [? ?]|]. intros (claim & Hin & Hk). by destruct (Hnone _ Hin).
  - intros Hin. destruct (Hidx "") as [[_ Hl]|[Hnone _]].
    + by rewrite Hl, topic_timestamps_empty_topic.
    + by destruct (Hnone _ Hin).
Qed.

Lemma extract_timestamps_keys_witness :
  ∃ idx : gmap string (list string),
    extract_timestamps scenario_transcript claims_with_empty_line = Some idx
    ∧ idx !! "" = Some [].
Proof.
  destruct (extract_timestamps_keys scenario_transcript claims_with_empty_line)
    as (idx & Hrun & _ & _ & Hempty).
  exists idx. split; [exact Hrun|]. apply Hempty.
  apply list_elem_of_In. vm_compute. right. by left.
Defined.

(** C5, as stated, fails: the empty second line of the claim text puts the
    key of the empty topic in the index. *)
Lemma keys_only_of_nonempty_lines_counterexample :
  ¬ keys_only_of_nonempty_lines scenario_transcript claims_with_empty_line.
Proof.
  intros H.
  destruct (extract_timestamps_lookup scenario_transcript claims_with_empty_line "" "")
    as (idx & Hrun & Hempty); [apply list_elem_of_In; vm_compute; tauto|done|].
  destruct (H idx "" Hrun) as (claim & Hin & Hne & Hk); [by eexists|].
  apply list_elem_of_In in Hin. vm_compute in Hin.
  destruct Hin as [<-|[<-|[<-|[]]]]; [discriminate Hk|done|discriminate Hk].
Qed.

(** ** Source Fetcher *)

Lemma is_source_link_spec href : is_source_link href = true ↔ qualifying href.
Proof.
  unfold is_source_link, qualifying.
  by rewrite andb_true_iff, negb_true_iff, contains_spec, contains_false.
Qed.

Lemma keep_links_filter hrefs links :
  fold_left keep_link hrefs links = links ++ List.filter is_source_link hrefs.
Proof.
  revert links. induction hrefs as [|href hrefs IH]; intros links; simpl.
  - by rewrite app_nil_r.
  - rewrite IH. unfold keep_link. destruct (is_source_link href); [|done].
    by rewrite <- app_assoc.
Qed.

Lemma top_links_filter hrefs :
  top_links hrefs = take 3 (List.filter is_source_link hrefs).
Proof. unfold top_links. by rewrite keep_links_filter. Qed.

(** C2. Whatever page the search returns, [fetch_source_links] returns at
    most three entries; each contains [http] and none contains [google]; they
    are the first qualifying hrefs of the page, in document order. For the
    four anchors of the scenario the result is the cdc.gov and the who.int
    link. *)
Theorem fetch_source_links_top_three
    (requests_get : list event → string → string → option string)
    (find_all_a_href : string → list string) query w html :
  requests_get w (search_url query) "Mozilla/5.0" = Some html →
  ∃ links,
    fetch_source_links requests_get find_all_a_href query w
    = Some (links, w ++ [HttpGet (search_url query) "Mozilla/5.0"])
    ∧ length links ≤ 3
    ∧ Forall (λ href, occurs_in "http" href ∧ ¬ occurs_in "google" href) links
    ∧ (∀ href, is_source_link href = true ↔ qualifying href)
    ∧ links `prefix_of` List.filter is_source_link (find_all_a_href html)
    ∧ links = take 3 (List.filter is_source_link (find_all_a_href html))
    ∧ (find_all_a_href html = scenario_anchors →
       links = ["https://cdc.gov/y"; "https://who.int/z"]).
Proof.
  intros Hget. exists (top_links (find_all_a_href html)).
  split; [|split; [|split; [|split; [|split; [|split]]]]].
  - unfold fetch_source_links, io_bind, http_get. by rewrite Hget.
  - rewrite top_links_filter, length_take. lia.
  - rewrite top_links_filter. apply Forall_take, Forall_forall.
    intros href [_ Hin]%list_elem_of_In%filter_In. by apply is_source_link_spec in Hin.
  - apply is_source_link_spec.
  - rewrite top_links_filter. eexists. symmetry. apply take_drop.
  - apply top_links_filter.
  - by intros ->.
Qed.

Lemma fetch_source_links_top_three_witness :
  ∃ links,
    fetch_source_links empty_page scenario_page_anchors "Vaccines" []
    = Some (links, [] ++ [HttpGet (search_url "Vaccines") "Mozilla/5.0"])
    ∧ links = ["https://cdc.gov/y"; "https://who.int/z"].
Proof.
  destruct (fetch_source_links_top_three empty_page scenario_page_anchors
              "Vaccines" [] "<html><body></body></html>" eq_refl)
    as (links & Hrun & _ & _ & _ & _ & _ & Hscenario).
  exists links. split; [exact Hrun|]. apply Hscenario. reflexivity.
Defined.

(** ** Report Builder *)

Lemma whitespace_only_cons c s :
  whitespace_only (String c s) ↔ PyStr.isspace c = true ∧ whitespace_only s.
Proof. unfold whitespace_only. simpl. by rewrite Forall_cons. Qed.

Lemma rstrip_empty s : PyStr.rstrip s = "" ↔ whitespace_only s.
Proof.
  induction s as [|c s IH]; simpl.
  - split; [constructor|done].
  - rewrite whitespace_only_cons, <- IH.
    destruct (PyStr.rstrip s); destruct (PyStr.isspace c);
      (split; [done|by intros [? ?]]).
Qed.

Lemma lstrip_whitespace_only s : whitespace_only (PyStr.lstrip s) ↔ whitespace_only s.
Proof.
  induction s as [|c s IH]; simpl; [done|].
  destruct (PyStr.isspace c) eqn:Hc; [|done].
  rewrite IH, whitespace_only_cons. split; [done|by intros [_ ?]].
Qed.

Lemma strip_empty s : PyStr.strip s = "" ↔ whitespace_only s.
Proof. unfold PyStr.strip. by rewrite rstrip_empty, lstrip_whitespace_only. Qed.

Lemma truthy_strip claim :
  PyStr.truthy (PyStr.strip claim) = false ↔ whitespace_only claim.
Proof. rewrite <- strip_empty. by destruct (PyStr.strip claim). Qed.

Lemma io_for_each_app {S A : Type} (body : S → A → IO S) l1 l2 s w :
  io_for_each body (l1 ++ l2) s w
  = match io_for_each body l1 s w with
    | Some (s', w') => io_for_each body l2 s' w'
    | None => None
    end.
Proof.
  revert s w. induction l1 as [|x l1 IH]; intros s w; simpl; [done|].
  unfold io_bind. destruct (body s x w) as [[s' w']|]; [apply IH|done].
Qed.

(** A claim line that is not blank gets one search and one section. *)
Lemma report_claim_section
    (requests_get : list event → string → string → option string)
    (find_all_a_href : string → list string)
    (timestamps : gmap string (list string)) verified report claim topic w html :
  ¬ whitespace_only claim → claim_topic claim = Some topic →
  requests_get w (search_url topic) "Mozilla/5.0" = Some html →
  report_claim requests_get find_all_a_href timestamps verified report claim w
  = Some (add_section timestamps verified report topic claim
            (top_links (find_all_a_href html)),
          w ++ [HttpGet (search_url topic) "Mozilla/5.0"]).
Proof.
  intros Hblank Hk Hget. unfold report_claim.
  destruct (PyStr.truthy (PyStr.strip claim)) eqn:Ht.
  - unfold io_bind, io_lift, fetch_source_links, io_bind, http_get.
    rewrite Hk. simpl. by rewrite Hget.
  - by apply truthy_strip in Ht.
Qed.

(** The default of [timestamps.get(topic, ['N/A'])] is never taken: every
    topic the report looks up was stored by [extract_timestamps]. *)
Lemma timestamps_get_default_unused transcript claims claim topic :
  claim ∈ PyStr.split_on "010" claims → claim_topic claim = Some topic →
  ∃ idx : gmap string (list string),
    extract_timestamps transcript claims = Some idx
    ∧ default ["N/A"] (idx !! topic) = topic_timestamps transcript topic.
Proof.
  intros Hin Hk.
  destruct (extract_timestamps_lookup transcript _ _ _ Hin Hk) as (idx & Hrun & Hl).
  exists idx. by rewrite Hl.
Qed.

(** C8. A claim line that is blank or made of whitespace only adds nothing
    to the report and asks nothing of the network: the loop body leaves the
    report and the history of requests as they are, and the loop over the
    claim lines gives the same result with the line removed. *)
Theorem blank_claim_line_no_section
    (requests_get : list event → string → string → option string)
    (find_all_a_href : string → list string)
    (timestamps : gmap string (list string)) verified before blank after report w :
  whitespace_only blank →
  report_claim requests_get find_all_a_href timestamps verified report blank w
  = Some (report, w)
  ∧ io_for_each (report_claim requests_get find_all_a_href timestamps verified)
      (before ++ blank :: after) report w
    = io_for_each (report_claim requests_get find_all_a_href timestamps verified)
        (before ++ after) report w.
Proof.
  intros Hblank.
  assert (∀ r v, report_claim requests_get find_all_a_href timestamps verified r blank v
                 = Some (r, v)) as Hskip.
  { intros r v. unfold report_claim.
    by rewrite (proj2 (truthy_strip blank) Hblank). }
  split; [apply Hskip|].
  rewrite !io_for_each_app.
  destruct (io_for_each _ before report w) as [[r v]|]; [|done].
  simpl. unfold io_bind. by rewrite Hskip.
Qed.

Lemma blank_claim_line_no_section_witness :
  report_claim empty_page no_anchor ∅ "verified" report_header "  " []
  = Some (report_header, [])
  ∧ io_for_each (report_claim empty_page no_anchor ∅ "verified")
      (["Vaccines: cause autism claim"] ++ "  " :: ["Masks: reduce transmission"])
      report_header []
    = io_for_each (report_claim empty_page no_anchor ∅ "verified")
        (["Vaccines: cause autism claim"] ++ ["Masks: reduce transmission"])
        report_header [].
Proof.
  apply (blank_claim_line_no_section empty_page no_anchor ∅ "verified"
           ["Vaccines: cause autism claim"] "  " ["Masks: reduce transmission"]
           report_header []).
  unfold whitespace_only. simpl. repeat constructor.
Defined.

(** C4. With one claim whose topic occurs on no transcript line that holds a
    timestamp, the section of the claim shows the empty list, and the
    placeholder text is nowhere in the report. *)
Theorem generate_final_report_empty_timestamps :
  extract_timestamps transcript_without_timestamp "Vaccines: cause autism claim"
  = Some {[ "Vaccines" := [] ]}
  ∧ generate_final_report one_claim_model empty_page no_anchor
      transcript_without_timestamp []
    = Some (report_without_timestamp,
            [ChatCompletion "gpt-4o"
               (nl +:+ "    Given the following transcript:" +:+ nl
                +:+ "    Some say vaccines cause autism." +:+ nl
                +:+ "    Identify strong claims, especially scientific or technical in nature. " +:+ nl
                +:+ "    List each claim separately along with any sources mentioned." +:+ nl
                +:+ "    ");
             ChatCompletion "gpt-4o"
               (nl +:+ "    Given the following list of claims:" +:+ nl
                +:+ "    Vaccines: cause autism claim" +:+ nl
                +:+ "    Compare each claim with established scientific literature and consensus." +:+ nl
                +:+ "    Provide an accuracy assessment for each claim along with links to relevant sources." +:+ nl
                +:+ "    ");
             HttpGet (search_url "Vaccines") "Mozilla/5.0"])
  ∧ occurs_in "**Timestamps:** []" report_without_timestamp
  ∧ ¬ occurs_in "N/A" report_without_timestamp.
Proof.
  split; [reflexivity|]. split; [reflexivity|]. split.
  - apply contains_spec. reflexivity.
  - apply contains_false. reflexivity.
Qed.

(** * Further properties of the code *)

(** ** Splitting *)

Lemma split_on_head sep s :
  ∃ w ws, PyStr.split_on sep s = w :: ws
          ∧ ¬ occurs_in (String sep "") w
          ∧ ((ws = [] ∧ s = w) ∨ ∃ rest, s = w +:+ String sep rest).
Proof.
  induction s as [|c s (w & ws & Hs & Hno & Hrest)]; simpl.
  - exists "", []. split; [done|]. split; [|by left].
    intros ([|? ?] & b & Hb); done.
  - destruct (decide (c = sep)) as [->|Hne].
    + exists "", (PyStr.split_on sep s). split; [done|]. split.
      * intros ([|? ?] & b & Hb); done.
      * right. by exists s.
    + rewrite Hs. exists (String c w), ws. split; [done|]. split.
      * intros ([|x a] & b & Hb).
        -- rewrite str_app_nil_l, str_app_cons in Hb. congruence.
        -- rewrite str_app_cons in Hb. injection Hb as _ Hb. apply Hno. by exists a, b.
      * destruct Hrest as [[-> ->]|[rest ->]]; [by left|right]. by exists rest.
Qed.

Lemma split_on_piece_occurs sep s w : w ∈ PyStr.split_on sep s → occurs_in w s.
Proof.
  revert w. induction s as [|c s IH]; intros w; simpl.
  - intros ->%list_elem_of_singleton. by exists "", "".
  - assert (∀ v, occurs_in v s → occurs_in v (String c s)) as Hstep.
    { intros v (a & b & ->). by exists (String c a), b. }
    destruct (decide (c = sep)) as [->|Hne].
    + intros [->|Hin]%elem_of_cons; [by exists "", (String sep s)|]. by apply Hstep, IH.
    + destruct (split_on_head sep s) as (w0 & ws & Hs & _ & Hrest).
      rewrite Hs in IH |- *. intros [->|Hin]%elem_of_cons.
      * destruct Hrest as [[_ ->]|[rest ->]].
        -- exists "", "". by rewrite str_app_nil_l, str_app_nil_r.
        -- exists "", (String sep rest). by rewrite str_app_nil_l, str_app_cons.
      * apply Hstep, IH, elem_of_cons. by right.
Qed.

Lemma split_on_app sep a b :
  PyStr.split_on sep (a +:+ String sep b) = PyStr.split_on sep a ++ PyStr.split_on sep b.
Proof.
  induction a as [|c a IH].
  - rewrite str_app_nil_l. simpl. by destruct (decide (sep = sep)).
  - rewrite str_app_cons. simpl. destruct (decide (c = sep)).
    + by rewrite IH.
    + rewrite IH. destruct (split_on_cons sep a) as (w & ws & ->). done.
Qed.

Lemma occurs_in_trans a b c : occurs_in a b → occurs_in b c → occurs_in a c.
Proof.
  intros (x & y & ->) (u & v & ->). exists (u +:+ x), (y +:+ v).
  by rewrite !str_app_assoc.
Qed.

(** X6. The topic of a claim line is the text before its first colon: it
    holds no colon, and the line is the topic alone or the topic, a colon and
    the rest. *)
Theorem claim_topic_before_first_colon claim :
  ∃ topic, claim_topic claim = Some topic
           ∧ ¬ occurs_in ":" topic
           ∧ (claim = topic ∨ ∃ rest, claim = topic +:+ ":" +:+ rest).
Proof.
  destruct (split_on_head ":" claim) as (w & ws & Hs & Hno & Hrest).
  exists w. unfold claim_topic. rewrite Hs. split; [done|]. split; [done|].
  destruct Hrest as [[_ ->]|[rest ->]]; [by left|right]. by exists rest.
Qed.

(** ** More on the index *)

Lemma split_ws_blank keyword :
  whitespace_only keyword → PyStr.split_ws keyword = [].
Proof.
  induction keyword as [|c s IH]; [done|].
  intros [Hc Hs]%whitespace_only_cons. simpl. rewrite Hc. by apply IH.
Qed.

Lemma topic_timestamps_blank transcript keyword :
  whitespace_only keyword → topic_timestamps transcript keyword = [].
Proof.
  intros Hblank. unfold topic_timestamps.
  induction (PyStr.split_on "010" transcript) as [|line lines IH]; [done|].
  simpl. rewrite IH. unfold line_timestamps, any_word_in_line.
  by rewrite (split_ws_blank _ Hblank).
Qed.

(** X7. A claim line whose topic is empty or made of whitespace only, such
    as a line that starts with a colon, gets an empty list: no transcript
    line ever matches it. *)
Theorem blank_topic_no_timestamp transcript claims claim keyword :
  claim ∈ PyStr.split_on "010" claims → claim_topic claim = Some keyword →
  whitespace_only keyword →
  ∃ idx : gmap string (list string),
    extract_timestamps transcript claims = Some idx ∧ idx !! keyword = Some [].
Proof.
  intros Hin Hk Hblank.
  destruct (extract_timestamps_lookup transcript _ _ _ Hin Hk) as (idx & Hrun & Hl).
  exists idx. split; [done|]. by rewrite Hl, topic_timestamps_blank.
Qed.

Lemma blank_topic_no_timestamp_witness :
  ∃ idx : gmap string (list string),
    extract_timestamps scenario_transcript " : cause autism" = Some idx
    ∧ idx !! " " = Some [].
Proof.
  apply (blank_topic_no_timestamp scenario_transcript " : cause autism"
           " : cause autism" " ").
  - apply list_elem_of_In. vm_compute. by left.
  - reflexivity.
  - unfold whitespace_only. simpl. repeat constructor.
Defined.

Lemma scan_claims_size transcript lines (d idx : gmap string (list string)) :
  for_each (scan_claim transcript) lines d = Some idx →
  size idx ≤ size d + length lines.
Proof.
  revert d. induction lines as [|claim lines IH]; intros d; simpl.
  - intros [= ->]. lia.
  - destruct (claim_topic_is_Some claim) as [k Hk].
    rewrite (scan_claim_spec _ _ _ _ Hk). simpl. intros Hrun%IH.
    rewrite map_size_insert in Hrun. destruct (d !! k); simpl in Hrun; lia.
Qed.

(** X10. The index is never empty, even for an empty claim text, and it has
    at most as many keys as the claim text has lines. *)
Theorem extract_timestamps_size transcript claims :
  ∃ idx : gmap string (list string),
    extract_timestamps transcript claims = Some idx
    ∧ idx ≠ ∅
    ∧ 1 ≤ size idx ≤ length (PyStr.split_on "010" claims).
Proof.
  destruct (extract_timestamps_spec transcript claims) as (idx & Hrun & Hidx).
  exists idx. split; [done|].
  assert (idx ≠ ∅) as Hne.
  { destruct (split_on_cons "010" claims) as (claim & rest & Hs).
    destruct (claim_topic_is_Some claim) as [k Hk].
    destruct (Hidx k) as [[_ Hl]|[Hnone _]].
    - intros ->. by rewrite lookup_empty in Hl.
    - destruct (Hnone claim); [|done]. rewrite Hs. apply elem_of_cons. by left. }
  split; [done|]. split.
  - apply map_size_non_empty_iff in Hne. lia.
  - apply scan_claims_size in Hrun. rewrite map_size_empty in Hrun. lia.
Qed.

Lemma line_without_timestamp keyword line :
  ¬ has_timestamp line → line_timestamps keyword line = [].
Proof. intros Hno. apply line_timestamps_spec. by intros [? _]. Qed.

(** X11. When the transcript holds no timestamp, every list of the index is
    empty. *)
Theorem extract_timestamps_no_timestamp transcript claims :
  ¬ has_timestamp transcript →
  ∃ idx : gmap string (list string),
    extract_timestamps transcript claims = Some idx
    ∧ map_Forall (λ _ l, l = []) idx.
Proof.
  intros Hno.
  destruct (extract_timestamps_spec transcript claims) as (idx & Hrun & Hidx).
  exists idx. split; [done|]. intros k l Hl.
  destruct (Hidx k) as [[_ Hk]|[_ Hk]]; [|congruence].
  assert (l = topic_timestamps transcript k) as -> by congruence.
  unfold topic_timestamps.
  assert (∀ line, line ∈ PyStr.split_on "010" transcript → ¬ has_timestamp line) as Hlines.
  { intros line Hin%split_on_piece_occurs (m & Hm & Hocc). apply Hno.
    exists m. split; [done|]. by eapply occurs_in_trans. }
  induction (PyStr.split_on "010" transcript) as [|line lines IH]; [done|].
  simpl. rewrite line_without_timestamp, IH; [done| |].
  - intros ? ?. apply Hlines, elem_of_cons. by right.
  - apply Hlines, elem_of_cons. by left.
Qed.

Lemma extract_timestamps_no_timestamp_witness :
  ∃ idx : gmap string (list string),
    extract_timestamps transcript_without_timestamp scenario_claims = Some idx
    ∧ map_Forall (λ _ l, l = []) idx.
Proof.
  apply (extract_timestamps_no_timestamp transcript_without_timestamp scenario_claims).
  apply re_search_timestamp_None. reflexivity.
Defined.

Lemma elem_of_topic_timestamps transcript keyword m :
  m ∈ topic_timestamps transcript keyword →
  ∃ line, line ∈ PyStr.split_on "010" transcript
          ∧ first_timestamp line m ∧ topic_word_in_line keyword line.
Proof.
  unfold topic_timestamps.
  induction (PyStr.split_on "010" transcript) as [|line lines IH]; simpl.
  - by intros ?%elem_of_nil.
  - intros [Hm|Hm]%elem_of_app.
    + exists line. split; [apply elem_of_cons; by left|].
      unfold line_timestamps in Hm.
      destruct (any_word_in_line keyword line) eqn:Hany; [|by apply elem_of_nil in Hm].
      destruct (PyStr.re_search_timestamp line) as [m0|] eqn:Hre;
        [|by apply elem_of_nil in Hm].
      apply list_elem_of_singleton in Hm as ->.
      split; [by apply re_search_timestamp_Some|by apply any_word_in_line_spec].
    + destruct (IH Hm) as (l & Hl & H). exists l.
      split; [apply elem_of_cons; by right|done].
Qed.

(** X12. Every timestamp of the index is taken from the transcript: it is
    the leftmost timestamp of a transcript line in which a word of the topic
    occurs, and so a substring of the transcript. *)
Theorem extract_timestamps_from_transcript transcript claims :
  ∃ idx : gmap string (list string),
    extract_timestamps transcript claims = Some idx
    ∧ ∀ k l m, idx !! k = Some l → m ∈ l →
        occurs_in m transcript
        ∧ ∃ line, line ∈ PyStr.split_on "010" transcript
                  ∧ first_timestamp line m ∧ topic_word_in_line k line.
Proof.
  destruct (extract_timestamps_spec transcript claims) as (idx & Hrun & Hidx).
  exists idx. split; [done|]. intros k l m Hl Hm.
  destruct (Hidx k) as [[_ Hk]|[_ Hk]]; [|congruence].
  assert (l = topic_timestamps transcript k) as -> by congruence.
  destruct (elem_of_topic_timestamps _ _ _ Hm) as (line & Hin & Hfirst & Hword).
  split; [|by exists line].
  apply occurs_in_trans with line; [|by eapply split_on_piece_occurs].
  destruct Hfirst as (_ & a & b & -> & _). by exists a, b.
Qed.

Lemma extract_timestamps_from_transcript_witness :
  occurs_in "00:01:15" scenario_transcript.
Proof.
  destruct (extract_timestamps_from_transcript scenario_transcript scenario_claims)
    as (idx & Hrun & Hfrom).
  apply (Hfrom "Vaccines" ["00:01:15"] "00:01:15").
  - assert (Some idx = Some {[ "Vaccines" := ["00:01:15"] ]}) as Heq.
    { rewrite <- Hrun. reflexivity. }
    injection Heq as ->. reflexivity.
  - apply list_elem_of_In. simpl. by left.
Defined.

Lemma elem_of_claim_topics claims k :
  k ∈ claim_topics claims
  ↔ ∃ claim, claim ∈ PyStr.split_on "010" claims ∧ claim_topic claim = Some k.
Proof. unfold claim_topics. apply list_elem_of_omap. Qed.

Lemma extract_timestamps_lookup_topics transcript claims :
  ∃ idx : gmap string (list string),
    extract_timestamps transcript claims = Some idx
    ∧ ∀ k, idx !! k = if decide (k ∈ claim_topics claims)
                      then Some (topic_timestamps transcript k) else None.
Proof.
  destruct (extract_timestamps_spec transcript claims) as (idx & Hrun & Hidx).
  exists idx. split; [done|]. intros k.
  destruct (Hidx k) as [[Hex Hl]|[Hnone Hl]]; rewrite Hl.
  - by rewrite decide_True by by apply elem_of_claim_topics.
  - rewrite decide_False; [done|].
    intros (claim & Hin & Hk)%elem_of_claim_topics. by destruct (Hnone _ Hin).
Qed.

(** X13. The index depends on the claim text only through the set of its
    topics: the order of the claim lines, their repetition and what follows
    the first colon of a line do not change it. *)
Theorem extract_timestamps_topics_only transcript claims1 claims2 :
  list_to_set (claim_topics claims1) =@{gset string} list_to_set (claim_topics claims2) →
  extract_timestamps transcript claims1 = extract_timestamps transcript claims2.
Proof.
  intros Hset.
  destruct (extract_timestamps_lookup_topics transcript claims1) as (i1 & -> & H1).
  destruct (extract_timestamps_lookup_topics transcript claims2) as (i2 & -> & H2).
  f_equal. apply map_eq. intros k. rewrite H1, H2.
  assert (k ∈ claim_topics claims1 ↔ k ∈ claim_topics claims2) as Hiff.
  { by rewrite <- !(elem_of_list_to_set (C := gset string)), Hset. }
  destruct (decide (k ∈ claim_topics claims1)), (decide (k ∈ claim_topics claims2));
    try done; exfalso; tauto.
Qed.

Lemma extract_timestamps_topics_only_witness :
  extract_timestamps scenario_transcript
    ("Vaccines: cause autism claim" +:+ nl +:+ "studied: by many")
  = extract_timestamps scenario_transcript
      ("studied: a lot" +:+ nl +:+ "Vaccines" +:+ nl +:+ "studied: again").
Proof.
  apply (extract_timestamps_topics_only scenario_transcript
           ("Vaccines: cause autism claim" +:+ nl +:+ "studied: by many")
           ("studied: a lot" +:+ nl +:+ "Vaccines" +:+ nl +:+ "studied: again")).
  vm_compute. reflexivity.
Defined.

Lemma topic_timestamps_app transcript1 transcript2 keyword :
  topic_timestamps (transcript1 +:+ nl +:+ transcript2) keyword
  = topic_timestamps transcript1 keyword ++ topic_timestamps transcript2 keyword.
Proof.
  unfold topic_timestamps.
  change (nl +:+ transcript2) with (String "010" transcript2).
  by rewrite split_on_app, map_app, concat_app.
Qed.

(** X14. Joining two transcripts with a newline joins the lists: for every
    topic, the list found in the joined transcript is the list found in the
    first part followed by the list found in the second. *)
Theorem extract_timestamps_transcript_app transcript1 transcript2 claims :
  ∃ idx1 idx2 idx : gmap string (list string),
    extract_timestamps transcript1 claims = Some idx1
    ∧ extract_timestamps transcript2 claims = Some idx2
    ∧ extract_timestamps (transcript1 +:+ nl +:+ transcript2) claims = Some idx
    ∧ ∀ k, idx !! k = (l1 ← idx1 !! k; l2 ← idx2 !! k; Some (l1 ++ l2)).
Proof.
  destruct (extract_timestamps_lookup_topics transcript1 claims) as (i1 & Hr1 & H1).
  destruct (extract_timestamps_lookup_topics transcript2 claims) as (i2 & Hr2 & H2).
  destruct (extract_timestamps_lookup_topics (transcript1 +:+ nl +:+ transcript2) claims)
    as (i & Hr & H).
  exists i1, i2, i. do 3 (split; [done|]). intros k. rewrite H, H1, H2.
  destruct (decide (k ∈ claim_topics claims)); simpl; [|done].
  by rewrite topic_timestamps_app.
Qed.

(** ** Letter case *)

Lemma isspace_lower_char c : PyStr.isspace (PyStr.lower_char c) = PyStr.isspace c.
Proof. by destruct c as [[] [] [] [] [] [] [] []]. Qed.

Lemma split_ws_lower s :
  PyStr.split_ws (PyStr.lower s) = map PyStr.lower (PyStr.split_ws s).
Proof.
  induction s as [|c s IH]; [done|].
  cbn [PyStr.lower PyStr.split_ws]. rewrite isspace_lower_char.
  destruct (PyStr.isspace c); [done|].
  destruct s as [|c' s']; [done|].
  cbn [PyStr.lower] in *. rewrite isspace_lower_char.
  destruct (PyStr.isspace c').
  - by rewrite IH.
  - rewrite IH. by destruct (PyStr.split_ws (String c' s')).
Qed.

Lemma any_word_in_line_lower keyword line :
  any_word_in_line keyword line
  = existsb (λ w, PyStr.contains w (PyStr.lower line))
            (PyStr.split_ws (PyStr.lower keyword)).
Proof.
  unfold any_word_in_line. rewrite split_ws_lower.
  by induction (PyStr.split_ws keyword) as [|w ws IH]; simpl; [|rewrite IH].
Qed.

Lemma topic_timestamps_case transcript keyword1 keyword2 :
  PyStr.lower keyword1 = PyStr.lower keyword2 →
  topic_timestamps transcript keyword1 = topic_timestamps transcript keyword2.
Proof.
  intros Hcase. unfold topic_timestamps. f_equal. apply map_ext. intros line.
  unfold line_timestamps. by rewrite !any_word_in_line_lower, Hcase.
Qed.

(** X8. Two claim lines whose topics differ only in the case of their
    letters are two keys of the index with the same list. *)
Theorem extract_timestamps_topic_case transcript claims claim1 claim2 keyword1 keyword2 :
  claim1 ∈ PyStr.split_on "010" claims → claim_topic claim1 = Some keyword1 →
  claim2 ∈ PyStr.split_on "010" claims → claim_topic claim2 = Some keyword2 →
  PyStr.lower keyword1 = PyStr.lower keyword2 →
  ∃ (idx : gmap string (list string)) l,
    extract_timestamps transcript claims = Some idx
    ∧ idx !! keyword1 = Some l ∧ idx !! keyword2 = Some l.
Proof.
  intros Hin1 Hk1 Hin2 Hk2 Hcase.
  destruct (extract_timestamps_spec transcript claims) as (idx & Hrun & Hidx).
  exists idx, (topic_timestamps transcript keyword1). split; [done|]. split.
  - destruct (Hidx keyword1) as [[_ ?]|[Hnone _]]; [done|]. by destruct (Hnone _ Hin1).
  - rewrite (topic_timestamps_case _ _ _ Hcase).
    destruct (Hidx keyword2) as [[_ ?]|[Hnone _]]; [done|]. by destruct (Hnone _ Hin2).
Qed.

Lemma extract_timestamps_topic_case_witness :
  ∃ (idx : gmap string (list string)) l,
    extract_timestamps scenario_transcript
      ("Vaccines: cause autism" +:+ nl +:+ "VACCINES: are studied") = Some idx
    ∧ idx !! "Vaccines" = Some l ∧ idx !! "VACCINES" = Some l.
Proof.
  apply (extract_timestamps_topic_case scenario_transcript
           ("Vaccines: cause autism" +:+ nl +:+ "VACCINES: are studied")
           "Vaccines: cause autism" "VACCINES: are studied").
  - apply list_elem_of_In. vm_compute. by left.
  - reflexivity.
  - apply list_elem_of_In. vm_compute. right. by left.
  - reflexivity.
  - reflexivity.
Defined.

(** ** How a list of timestamps is printed *)

Lemma digit_plain d :
  PyStr.isdecimal d = true →
  d ≠ PyStr.apostrophe ∧ PyStr.repr_char PyStr.apostrophe d = String d "".
Proof.
  intros Hd. destruct d as [[] [] [] [] [] [] [] []];
    vm_compute in Hd; try discriminate Hd; split; done.
Qed.

Lemma has_char_none q s :
  Forall (λ c, c ≠ q) (list_ascii_of_string s) → PyStr.has_char q s = false.
Proof.
  induction s as [|c s IH]; simpl; [done|].
  intros [Hc Hs]%Forall_cons. by rewrite bool_decide_eq_false_2, IH.
Qed.

Lemma repr_body_plain q s :
  Forall (λ c, PyStr.repr_char q c = String c "") (list_ascii_of_string s) →
  PyStr.repr_body q s = s.
Proof.
  induction s as [|c s IH]; simpl; [done|].
  intros [Hc Hs]%Forall_cons. by rewrite Hc, IH.
Qed.

Lemma repr_timestamp m : is_timestamp m → PyStr.repr m = quoted m.
Proof.
  intros (d1 & d2 & d3 & d4 & d5 & d6 & HF & ->).
  repeat (apply Forall_cons in HF as [[? ?]%digit_plain HF]).
  unfold PyStr.repr, PyStr.repr_quote.
  rewrite has_char_none by (simpl; repeat constructor; done).
  rewrite repr_body_plain by (simpl; repeat constructor; done).
  reflexivity.
Qed.

(** X9. In the timestamps field of a section, the list of a topic is printed
    between square brackets, each timestamp between apostrophes, with a comma
    and a space between two of them. *)
Theorem timestamps_field_rendering transcript keyword :
  PyStr.str_of_list (topic_timestamps transcript keyword)
  = "[" +:+ PyStr.join ", " (map quoted (topic_timestamps transcript keyword)) +:+ "]".
Proof.
  unfold PyStr.str_of_list.
  assert (∀ l, Forall is_timestamp l → map PyStr.repr l = map quoted l) as Hmap.
  { intros l Hshape. induction Hshape as [|m l Hm _ IH]; simpl; [done|].
    by rewrite repr_timestamp, IH. }
  by rewrite Hmap by apply topic_timestamps_shape.
Qed.

(** ** More on the report builder *)

Lemma add_sources_text sources report :
  fold_left add_source sources report
  = report +:+ concat_strings (map source_bullet sources).
Proof.
  revert report. induction sources as [|source sources IH]; intros report; simpl.
  - by rewrite str_app_nil_r.
  - rewrite IH. unfold add_source. fold (source_bullet source).
    by rewrite str_app_assoc.
Qed.

Lemma add_section_text (timestamps : gmap string (list string))
    verified report topic claim sources :
  add_section timestamps verified report topic claim sources
  = report +:+ section_text (default ["N/A"] (timestamps !! topic))
                 verified topic claim sources.
Proof.
  unfold add_section, section_text. rewrite add_sources_text.
  by rewrite !str_app_assoc.
Qed.

Lemma top_links_qualifying hrefs :
  length (top_links hrefs) ≤ 3 ∧ Forall qualifying (top_links hrefs).
Proof.
  rewrite top_links_filter. split; [rewrite length_take; lia|].
  apply Forall_take, Forall_forall.
  intros href [_ Hin]%list_elem_of_In%filter_In. by apply is_source_link_spec.
Qed.

Lemma report_claim_inv
    (requests_get : list event → string → string → option string)
    (find_all_a_href : string → list string)
    (timestamps : gmap string (list string)) verified report claim w report' w' :
  report_claim requests_get find_all_a_href timestamps verified report claim w
  = Some (report', w') →
  (PyStr.truthy (PyStr.strip claim) = false ∧ report' = report ∧ w' = w)
  ∨ (PyStr.truthy (PyStr.strip claim) = true ∧
     ∃ topic html,
       claim_topic claim = Some topic
       ∧ requests_get w (search_url topic) "Mozilla/5.0" = Some html
       ∧ report' = add_section timestamps verified report topic claim
                     (top_links (find_all_a_href html))
       ∧ w' = w ++ [HttpGet (search_url topic) "Mozilla/5.0"]).
Proof.
  unfold report_claim. destruct (PyStr.truthy (PyStr.strip claim)).
  - destruct (claim_topic_is_Some claim) as [topic Hk].
    unfold io_bind, io_lift, fetch_source_links, io_bind, http_get. rewrite Hk.
    destruct (requests_get w (search_url topic) "Mozilla/5.0") as [html|] eqn:Hget;
      simpl; [|done].
    intros [= <- <-]. right. split; [done|]. by exists topic, html.
  - intros [= <- <-]. by left.
Qed.

Lemma report_loop_run
    (requests_get : list event → string → string → option string)
    (find_all_a_href : string → list string)
    (timestamps : gmap string (list string)) verified lines report w report' w' :
  io_for_each (report_claim requests_get find_all_a_href timestamps verified)
    lines report w = Some (report', w') →
  ∃ secs : list section_of_report,
    map sec_claim secs
    = List.filter (λ claim, PyStr.truthy (PyStr.strip claim)) lines
    ∧ Forall (λ s, claim_topic (sec_claim s) = Some (sec_topic s)
                   ∧ ∃ html, sec_sources s = top_links (find_all_a_href html)) secs
    ∧ report' = report +:+ concat_strings
        (map (λ s, section_text (default ["N/A"] (timestamps !! sec_topic s))
                     verified (sec_topic s) (sec_claim s) (sec_sources s)) secs)
    ∧ w' = w ++ map (λ s, HttpGet (search_url (sec_topic s)) "Mozilla/5.0") secs.
Proof.
  revert report w. induction lines as [|claim lines IH]; intros report w; simpl.
  - intros [= <- <-]. exists []. simpl. by rewrite str_app_nil_r, app_nil_r.
  - unfold io_bind at 1.
    destruct (report_claim _ _ _ _ report claim w) as [[r1 w1]|] eqn:Hstep; [|done].
    intros (secs & Hclaims & Hsecs & -> & ->)%IH.
    apply report_claim_inv in Hstep
      as [(Ht & -> & ->)|(Ht & topic & html & Hk & Hget & -> & ->)]; rewrite Ht.
    + by exists secs.
    + exists ({| sec_claim := claim; sec_topic := topic;
                 sec_sources := top_links (find_all_a_href html) |} :: secs).
      simpl. split; [by rewrite Hclaims|]. split.
      * constructor; [|done]. simpl. split; [done|by exists html].
      * by rewrite add_section_text, str_app_assoc, <- app_assoc.
Qed.

Lemma extract_claims_run
    (chat_completion_create : list event → string → string → option string)
    transcript w :
  extract_claims chat_completion_create transcript w
  = (r ← chat_completion_create w "gpt-4o" (claims_prompt transcript);
     Some (r, w ++ [ChatCompletion "gpt-4o" (claims_prompt transcript)])).
Proof. reflexivity. Qed.

Lemma verify_claims_run
    (chat_completion_create : list event → string → string → option string)
    claims w :
  verify_claims chat_completion_create claims w
  = (r ← chat_completion_create w "gpt-4o" (verification_prompt claims);
     Some (r, w ++ [ChatCompletion "gpt-4o" (verification_prompt claims)])).
Proof. reflexivity. Qed.

Lemma generate_final_report_run
    (chat_completion_create requests_get : list event → string → string → option string)
    (find_all_a_href : string → list string) transcript w report w' :
  generate_final_report chat_completion_create requests_get find_all_a_href
    transcript w = Some (report, w') →
  ∃ claims verified (secs : list section_of_report),
    chat_completion_create w "gpt-4o" (claims_prompt transcript) = Some claims
    ∧ chat_completion_create (w ++ [ChatCompletion "gpt-4o" (claims_prompt transcript)])
        "gpt-4o" (verification_prompt claims) = Some verified
    ∧ map sec_claim secs = nonblank_lines claims
    ∧ Forall (λ s, claim_topic (sec_claim s) = Some (sec_topic s)
                   ∧ ∃ html, sec_sources s = top_links (find_all_a_href html)) secs
    ∧ report = report_header +:+ concat_strings
        (map (λ s, section_text (topic_timestamps transcript (sec_topic s))
                     verified (sec_topic s) (sec_claim s) (sec_sources s)) secs)
    ∧ w' = w ++ [ChatCompletion "gpt-4o" (claims_prompt transcript);
                 ChatCompletion "gpt-4o" (verification_prompt claims)]
             ++ map (λ s, HttpGet (search_url (sec_topic s)) "Mozilla/5.0") secs.
Proof.
  unfold generate_final_report. unfold io_bind at 1. rewrite extract_claims_run.
  destruct (chat_completion_create w "gpt-4o" (claims_prompt transcript))
    as [claims|] eqn:Hclaims; simpl; [|done].
  unfold io_bind at 1. rewrite verify_claims_run.
  destruct (chat_completion_create _ "gpt-4o" (verification_prompt claims))
    as [verified|] eqn:Hverified; simpl; [|done].
  unfold io_bind at 1, timestamp_locator, io_lift.
  destruct (extract_timestamps_spec transcript claims) as (idx & -> & Hidx).
  intros (secs & Hlines & Hsecs & -> & ->)%report_loop_run.
  exists claims, verified, secs. do 4 (split; [done|]). split.
  - do 2 f_equal. apply map_ext_in. intros s Hs. f_equal.
    assert (sec_claim s ∈ PyStr.split_on "010" claims) as Hin.
    { apply list_elem_of_In. eapply (proj1 (filter_In _ _ _)).
      rewrite <- Hlines. by apply in_map. }
    assert (s ∈ secs) as Hs' by by apply list_elem_of_In.
    destruct (proj1 (Forall_forall _ _) Hsecs s Hs') as [Hk _].
    destruct (Hidx (sec_topic s)) as [[_ ->]|[Hnone _]]; [done|].
    by destruct (Hnone _ Hin).
  - by rewrite <- !app_assoc.
Qed.

(** X1. A run of [generate_final_report] that returns has asked, in this
    order: the claims of the model, the verification of the model, and one
    search per claim line that is not blank, each for the topic of its line;
    a topic that several lines share is searched once per line. *)
Theorem generate_final_report_requests
    (chat_completion_create requests_get : list event → string → string → option string)
    (find_all_a_href : string → list string) transcript w report w' :
  generate_final_report chat_completion_create requests_get find_all_a_href
    transcript w = Some (report, w') →
  ∃ claims topics,
    chat_completion_create w "gpt-4o" (claims_prompt transcript) = Some claims
    ∧ Forall2 (λ claim topic, claim_topic claim = Some topic)
        (nonblank_lines claims) topics
    ∧ w' = w ++ [ChatCompletion "gpt-4o" (claims_prompt transcript);
                 ChatCompletion "gpt-4o" (verification_prompt claims)]
             ++ map (λ topic, HttpGet (search_url topic) "Mozilla/5.0") topics.
Proof.
  intros (claims & verified & secs & Hc & _ & Hlines & Hsecs & _ & ->)
    %generate_final_report_run.
  exists claims, (map sec_topic secs). split; [done|]. rewrite <- Hlines.
  clear Hlines. split.
  - induction Hsecs as [|s secs [Hk _] _ IH]; simpl; by constructor.
  - by rewrite map_map.
Qed.

Lemma generate_final_report_requests_witness :
  ∃ claims topics,
    one_claim_model [] "gpt-4o" (claims_prompt transcript_without_timestamp)
    = Some claims
    ∧ Forall2 (λ claim topic, claim_topic claim = Some topic)
        (nonblank_lines claims) topics
    ∧ [ChatCompletion "gpt-4o" (claims_prompt transcript_without_timestamp);
       ChatCompletion "gpt-4o" (verification_prompt "Vaccines: cause autism claim");
       HttpGet (search_url "Vaccines") "Mozilla/5.0"]
      = [] ++ [ChatCompletion "gpt-4o" (claims_prompt transcript_without_timestamp);
               ChatCompletion "gpt-4o" (verification_prompt claims)]
           ++ map (λ topic, HttpGet (search_url topic) "Mozilla/5.0") topics.
Proof.
  apply (generate_final_report_requests one_claim_model empty_page no_anchor
           transcript_without_timestamp [] report_without_timestamp).
  reflexivity.
Defined.

(** X2. The report of a run that returns is the two heading lines followed
    by one section per claim line that is not blank, in order. A section
    shows the topic, the claim line, the list of timestamps found for the
    topic in the transcript, the whole verification text, and at most three
    links, each containing [http] and none containing [google]. *)
Theorem generate_final_report_text
    (chat_completion_create requests_get : list event → string → string → option string)
    (find_all_a_href : string → list string) transcript w report w' :
  generate_final_report chat_completion_create requests_get find_all_a_href
    transcript w = Some (report, w') →
  ∃ claims verified (secs : list section_of_report),
    chat_completion_create w "gpt-4o" (claims_prompt transcript) = Some claims
    ∧ chat_completion_create (w ++ [ChatCompletion "gpt-4o" (claims_prompt transcript)])
        "gpt-4o" (verification_prompt claims) = Some verified
    ∧ map sec_claim secs = nonblank_lines claims
    ∧ Forall (λ s, claim_topic (sec_claim s) = Some (sec_topic s)
                   ∧ length (sec_sources s) ≤ 3
                   ∧ Forall qualifying (sec_sources s)) secs
    ∧ report = report_header +:+ concat_strings
        (map (λ s, section_text (topic_timestamps transcript (sec_topic s))
                     verified (sec_topic s) (sec_claim s) (sec_sources s)) secs).
Proof.
  intros (claims & verified & secs & Hc & Hv & Hlines & Hsecs & -> & _)
    %generate_final_report_run.
  exists claims, verified, secs. do 3 (split; [done|]). split; [|done].
  eapply Forall_impl; [exact Hsecs|]. intros s [Hk [html ->]].
  split; [done|]. apply top_links_qualifying.
Qed.

Lemma generate_final_report_text_witness :
  ∃ claims verified (secs : list section_of_report),
    one_claim_model [] "gpt-4o" (claims_prompt transcript_without_timestamp)
    = Some claims
    ∧ one_claim_model
        ([] ++ [ChatCompletion "gpt-4o" (claims_prompt transcript_without_timestamp)])
        "gpt-4o" (verification_prompt claims) = Some verified
    ∧ map sec_claim secs = nonblank_lines claims
    ∧ Forall (λ s, claim_topic (sec_claim s) = Some (sec_topic s)
                   ∧ length (sec_sources s) ≤ 3
                   ∧ Forall qualifying (sec_sources s)) secs
    ∧ report_without_timestamp = report_header +:+ concat_strings
        (map (λ s, section_text
                     (topic_timestamps transcript_without_timestamp (sec_topic s))
                     verified (sec_topic s) (sec_claim s) (sec_sources s)) secs).
Proof.
  apply (generate_final_report_text one_claim_model empty_page no_anchor
           transcript_without_timestamp [] report_without_timestamp
           [ChatCompletion "gpt-4o" (claims_prompt transcript_without_timestamp);
            ChatCompletion "gpt-4o" (verification_prompt "Vaccines: cause autism claim");
            HttpGet (search_url "Vaccines") "Mozilla/5.0"]).
  reflexivity.
Defined.

Lemma report_loop_total
    (requests_get : list event → string → string → option string)
    (find_all_a_href : string → list string)
    (timestamps : gmap string (list string)) verified lines report w :
  (∀ v url user_agent, is_Some (requests_get v url user_agent)) →
  is_Some (io_for_each (report_claim requests_get find_all_a_href timestamps verified)
             lines report w).
Proof.
  intros Hup. revert report w.
  induction lines as [|claim lines IH]; intros report w; simpl; [done|].
  unfold io_bind at 1.
  assert (is_Some (report_claim requests_get find_all_a_href timestamps verified
                     report claim w)) as [[r1 w1] ->]; [|apply IH].
  unfold report_claim. destruct (PyStr.truthy (PyStr.strip claim)); [|done].
  destruct (claim_topic_is_Some claim) as [topic Hk].
  unfold io_bind, io_lift, fetch_source_links, io_bind, http_get. rewrite Hk.
  by destruct (Hup w (search_url topic) "Mozilla/5.0") as [html ->].
Qed.

(** X3. The report builder raises nothing of its own: when the model and
    the search answer every request, [generate_final_report] returns a
    report, whatever the transcript and whatever the model answers. *)
Theorem generate_final_report_returns
    (chat_completion_create requests_get : list event → string → string → option string)
    (find_all_a_href : string → list string) transcript w :
  (∀ v model prompt, is_Some (chat_completion_create v model prompt)) →
  (∀ v url user_agent, is_Some (requests_get v url user_agent)) →
  is_Some (generate_final_report chat_completion_create requests_get
             find_all_a_href transcript w).
Proof.
  intros Hmodel Hsearch.
  unfold generate_final_report. unfold io_bind at 1. rewrite extract_claims_run.
  destruct (Hmodel w "gpt-4o" (claims_prompt transcript)) as [claims ->]. simpl.
  unfold io_bind at 1. rewrite verify_claims_run.
  destruct (Hmodel (w ++ [ChatCompletion "gpt-4o" (claims_prompt transcript)])
              "gpt-4o" (verification_prompt claims)) as [verified ->]. simpl.
  unfold io_bind at 1, timestamp_locator, io_lift.
  destruct (extract_timestamps_spec transcript claims) as (idx & -> & _).
  by apply report_loop_total.
Qed.

Lemma generate_final_report_returns_witness :
  is_Some (generate_final_report one_claim_model empty_page scenario_page_anchors
             scenario_transcript []).
Proof.
  apply (generate_final_report_returns one_claim_model empty_page
           scenario_page_anchors scenario_transcript []).
  - intros v model prompt. by eexists.
  - intros v url user_agent. by eexists.
Defined.

Lemma report_loop_failed_search
    (requests_get : list event → string → string → option string)
    (find_all_a_href : string → list string)
    (timestamps : gmap string (list string)) verified lines claim topic report w :
  claim ∈ lines → PyStr.truthy (PyStr.strip claim) = true →
  claim_topic claim = Some topic →
  (∀ v, requests_get v (search_url topic) "Mozilla/5.0" = None) →
  io_for_each (report_claim requests_get find_all_a_href timestamps verified)
    lines report w = None.
Proof.
  intros Hin Ht Hk Hdown. revert report w.
  induction lines as [|line lines IH]; intros report w; [by apply elem_of_nil in Hin|].
  simpl. unfold io_bind at 1.
  destruct (report_claim _ _ _ _ report line w) as [[r1 w1]|] eqn:Hstep; [|done].
  apply elem_of_cons in Hin as [<-|Hin]; [|by apply IH].
  apply report_claim_inv in Hstep as [(Hf & _)|(_ & t & html & Hk' & Hget & _)].
  - congruence.
  - assert (t = topic) as -> by congruence. by rewrite Hdown in Hget.
Qed.

(** X4. One failed search loses the whole report: when the search for the
    topic of one claim line that is not blank fails, [generate_final_report]
    returns nothing, whatever the model answered and whatever the searches
    for the other claim lines gave. *)
Theorem failed_search_loses_report
    (chat_completion_create requests_get : list event → string → string → option string)
    (find_all_a_href : string → list string) transcript w claims claim topic :
  chat_completion_create w "gpt-4o" (claims_prompt transcript) = Some claims →
  claim ∈ nonblank_lines claims → claim_topic claim = Some topic →
  (∀ v, requests_get v (search_url topic) "Mozilla/5.0" = None) →
  generate_final_report chat_completion_create requests_get find_all_a_href
    transcript w = None.
Proof.
  intros Hclaims [Hin Ht]%list_elem_of_In%filter_In Hk Hdown.
  unfold generate_final_report. unfold io_bind at 1.
  rewrite extract_claims_run, Hclaims. simpl.
  unfold io_bind at 1. rewrite verify_claims_run.
  destruct (chat_completion_create _ "gpt-4o" (verification_prompt claims))
    as [verified|]; simpl; [|done].
  unfold io_bind at 1, timestamp_locator, io_lift.
  destruct (extract_timestamps_spec transcript claims) as (idx & -> & _).
  eapply report_loop_failed_search; [by apply list_elem_of_In|done..].
Qed.

Lemma failed_search_loses_report_witness :
  generate_final_report one_claim_model search_down no_anchor
    scenario_transcript [] = None.
Proof.
  apply (failed_search_loses_report one_claim_model search_down no_anchor
           scenario_transcript [] "Vaccines: cause autism claim"
           "Vaccines: cause autism claim" "Vaccines").
  - reflexivity.
  - apply list_elem_of_In. vm_compute. by left.
  - reflexivity.
  - reflexivity.
Defined.

(** X5. A failed request to the model loses the report and stops the run:
    when the request for the claims fails, or the request for their
    verification fails, [generate_final_report] returns nothing. *)
Theorem failed_model_loses_report
    (chat_completion_create requests_get : list event → string → string → option string)
    (find_all_a_href : string → list string) transcript w :
  chat_completion_create w "gpt-4o" (claims_prompt transcript) = None
  ∨ (∃ claims,
       chat_completion_create w "gpt-4o" (claims_prompt transcript) = Some claims
       ∧ chat_completion_create
           (w ++ [ChatCompletion "gpt-4o" (claims_prompt transcript)])
           "gpt-4o" (verification_prompt claims) = None) →
  generate_final_report chat_completion_create requests_get find_all_a_href
    transcript w = None.
Proof.
  unfold generate_final_report. unfold io_bind at 1. rewrite extract_claims_run.
  intros [->|(claims & -> & Hv)]; simpl; [done|].
  unfold io_bind at 1. by rewrite verify_claims_run, Hv.
Qed.

Lemma failed_model_loses_report_witness :
  generate_final_report model_down empty_page no_anchor scenario_transcript [] = None.
Proof.
  apply (failed_model_loses_report model_down empty_page no_anchor
           scenario_transcript []).
  left. reflexivity.
Defined.

Lemma line_timestamps_length keyword line : length (line_timestamps keyword line) ≤ 1.
Proof.
  unfold line_timestamps. destruct (any_word_in_line keyword line); simpl; [|lia].
  destruct (PyStr.re_search_timestamp line); simpl; lia.
Qed.

(** X15. No list of the index is longer than the transcript has lines: a
    transcript line gives a topic one timestamp at most, however many
    timestamps the line holds and however many words of the topic occur in
    it. *)
Theorem extract_timestamps_list_length transcript claims :
  ∃ idx : gmap string (list string),
    extract_timestamps transcript claims = Some idx
    ∧ map_Forall (λ _ l, length l ≤ length (PyStr.split_on "010" transcript)) idx.
Proof.
  destruct (extract_timestamps_spec transcript claims) as (idx & Hrun & Hidx).
  exists idx. split; [done|]. intros k l Hl.
  destruct (Hidx k) as [[_ Hk]|[_ Hk]]; [|congruence].
  assert (l = topic_timestamps transcript k) as -> by congruence.
  unfold topic_timestamps.
  induction (PyStr.split_on "010" transcript) as [|line lines IH]; simpl; [lia|].
  rewrite length_app. pose proof (line_timestamps_length k line). lia.
Qed.
